(** * Piliseed client: batch recommendation flow

    A shallow embedding of the request handlers of the crop pages
    ([CropsPage.tsx]: [checkExistingRecommendations], [handleFormSubmit]) and
    of the "Load More" flow of the history detail page ([handleLoadMore],
    [fetchSessionDetails], the Load More button) together with the endpoint
    fragment that formats the exclusion list for the prompt
    ([auto_generate_recommendations]).

    Handlers are [async] functions: they are embedded as programs of a small
    free monad whose only suspension point is [await fetch(...)].  The React
    state setters are commands of the program, the values read by a handler
    are the ones of the render it was created in (its closure). *)

From Stdlib Require Import String Ascii List Bool Arith Lia.
From Corelib Require Import PrimFloat.
Import ListNotations.
Local Open Scope string_scope.
Local Open Scope list_scope.

(** ** JavaScript values that cross the handlers *)

(** A JS [number] is an IEEE double. *)
Definition number : Type := float.

(** Values typed [any] in the interfaces: parsed JSON, never inspected. *)
#[local] Unset Elimination Schemes.
Inductive json : Type :=
| JNull
| JBool (b : bool)
| JNumber (n : number)
| JString (s : string)
| JArray (items : list json)
| JObject (fields : list (string * json)).
#[local] Set Elimination Schemes.

(** What a [catch (err)] clause can receive: an [Error] instance with its
    [message], or any other thrown value. *)
Inductive Thrown : Type :=
| ErrorObject (message : string)
| OtherValue (v : json).

(** [err instanceof Error ? err.message : fallback] *)
Definition message_or (err : Thrown) (fallback : string) : string :=
  match err with
  | ErrorObject message => message
  | OtherValue _ => fallback
  end.

(** [!s] for a value of type [string | undefined]: [undefined] and the empty
    string are falsy. *)
Definition falsy_string (s : option string) : bool :=
  match s with
  | None => true
  | Some EmptyString => true
  | Some (String _ _) => false
  end.

(** [!o] for a value of type [T | null | undefined] where [T] is an object or
    an array: every object is truthy, also an empty array. *)
Definition falsy_object {A : Type} (o : option A) : bool :=
  match o with
  | None => true
  | Some _ => false
  end.

(** ** Data model ([CropsPage.tsx], lines 9-42) *)

Record Scores : Type := {
  overall_score : number;
  confidence_pct : number;
  env_score : number;
  econ_score : number;
  time_fit_score : number;
  season_score : number;
  labor_score : number;
  risk_score : number;
  market_score : number
}.

Record CropRecommendation : Type := {
  crop : string;
  searchable_name : option string;
  image_url : option string;
  scientific_name : string;
  category : string;
  scores : Scores;
  growth_requirements : json;
  tolerances : json;
  management : json;
  economics : json;
  market_strategy : json;
  planting_schedule : json;
  risk_assessment : json;
  reasoning : string
}.

Record FarmerFormData : Type := {
  crop_category : string;
  budget_php : number;
  waiting_tolerance_days : number;
  land_size_ha : number;
  manpower : number
}.

(** The [current_sensors] record of a sensor, as [response.json()] delivers
    it: the interface [SensorData] is not part of the sources, the four
    properties are the ones [handleLoadMore] reads.  A property that the
    payload lacks reads as [undefined], here [None]. *)
Record SensorData : Type := {
  soil_moisture_pct : option number;
  temperature_c : option number;
  humidity_pct : option number;
  light_lux : option number
}.

(** ** Requests and responses *)

Inductive Method : Type := GET | POST.

(** The object given to [JSON.stringify] by [handleLoadMore]; a property whose
    value is [undefined] is left out of the serialised body. *)
Record ReadingsBody : Type := {
  body_soil_moisture_pct : option number;
  body_temperature_c : option number;
  body_humidity_pct : option number;
  body_light_lux : option number;
  already_generated : option (list string)
}.

Inductive RequestBody : Type :=
| ReadingsJson (b : ReadingsBody)
| GenerateJson (sensor_id : string) (farmer : FarmerFormData).

Record Request : Type := {
  method : Method;
  url : string;
  headers : list (string * string);
  body : option RequestBody
}.

(** The properties the handlers read from a parsed response object; an absent
    property is [None]. *)
Record Payload : Type := {
  p_recommendations : option (list CropRecommendation);
  p_sensor_id : option string;
  p_current_sensors : option SensorData;
  p_top_3_crops : option (list string);
  p_total_crops_generated : option nat
}.

(** The body of a response as [response.json()] sees it.  [Unparseable]
    carries the message of the [SyntaxError] the engine raises; [NullJson] is
    the JSON text [null], on which the first property access raises a
    [TypeError] with the given message. *)
Inductive ResponseBody : Type :=
| Unparseable (syntax_error : string)
| NullJson (type_error : string)
| ObjectJson (data : Payload).

Record Response : Type := {
  status : nat;
  response_body : ResponseBody
}.

(** [response.ok]: the status is in the range 200-299. *)
Definition ok (response : Response) : bool :=
  ((200 <=? status response) && (status response <=? 299))%nat.

(** [fetch] rejects on a network failure and resolves with a response for
    every HTTP status. *)
Inductive FetchResult : Type :=
| Rejected (reason : Thrown)
| Resolved (response : Response).

(** ** Handler programs *)

Section Programs.
(** [C] is the type of the state setter calls of one component. *)
Context {C : Type}.

Inductive Prog : Type :=
| Done
| Throw (err : Thrown)
| Call (c : C) (k : Prog)
| ConsoleError (label : string) (err : Thrown) (k : Prog)
| Await (req : Request) (k : FetchResult -> Prog).

(** [p; q] *)
Fixpoint seq (p q : Prog) : Prog :=
  match p with
  | Done => q
  | Throw err => Throw err
  | Call c k => Call c (seq k q)
  | ConsoleError label err k => ConsoleError label err (seq k q)
  | Await req k => Await req (fun r => seq (k r) q)
  end.

(** [try { p } catch (err) { handler err }] *)
Fixpoint try_catch (p : Prog) (handler : Thrown -> Prog) : Prog :=
  match p with
  | Done => Done
  | Throw err => handler err
  | Call c k => Call c (try_catch k handler)
  | ConsoleError label err k => ConsoleError label err (try_catch k handler)
  | Await req k => Await req (fun r => try_catch (k r) handler)
  end.

(** [try { p } finally { q }]: [q] runs on both exits, a pending exception
    is thrown again after it. *)
Fixpoint finally (p q : Prog) : Prog :=
  match p with
  | Done => q
  | Throw err => seq q (Throw err)
  | Call c k => Call c (finally k q)
  | ConsoleError label err k => ConsoleError label err (finally k q)
  | Await req k => Await req (fun r => finally (k r) q)
  end.

(** [const response = await fetch(...)] followed by [k response]. *)
Definition fetch (req : Request) (k : Response -> Prog) : Prog :=
  Await req (fun r =>
    match r with
    | Rejected reason => Throw reason
    | Resolved response => k response
    end).

(** [const data = await response.json()] followed by a first property read
    of [data], then [k]. *)
Definition json_data (response : Response) (k : Payload -> Prog) : Prog :=
  match response_body response with
  | Unparseable syntax_error => Throw (ErrorObject syntax_error)
  | NullJson type_error => Throw (ErrorObject type_error)
  | ObjectJson data => k data
  end.

(** *** Running a program to completion against an environment

    The environment answers every request; [B] is its state.  The outcome
    records the component state, the requests in the order issued, the
    console and an exception that left the program. *)
Section Run.
Context {S B : Type}.
Variable apply : C -> S -> S.
Variable respond : B -> Request -> FetchResult * B.

Record Outcome : Type := {
  final : S;
  env : B;
  requests : list Request;
  console : list (string * Thrown);
  uncaught : option Thrown
}.

Fixpoint run (p : Prog) (s : S) (b : B) : Outcome :=
  match p with
  | Done =>
      {| final := s; env := b; requests := []; console := [];
         uncaught := None |}
  | Throw err =>
      {| final := s; env := b; requests := []; console := [];
         uncaught := Some err |}
  | Call c k => run k (apply c s) b
  | ConsoleError label err k =>
      let o := run k s b in
      {| final := final o; env := env o; requests := requests o;
         console := (label, err) :: console o; uncaught := uncaught o |}
  | Await req k =>
      let '(r, b') := respond b req in
      let o := run (k r) s b' in
      {| final := final o; env := env o; requests := req :: requests o;
         console := console o; uncaught := uncaught o |}
  end.

(** *** Running a program up to its next [await] *)
Inductive Paused : Type :=
| Finished (uncaught : option Thrown)
| Waiting (req : Request) (k : FetchResult -> Prog).

Fixpoint advance (p : Prog) (s : S) : S * Paused :=
  match p with
  | Done => (s, Finished None)
  | Throw err => (s, Finished (Some err))
  | Call c k => advance k (apply c s)
  | ConsoleError _ _ k => advance k s
  | Await req k => (s, Waiting req k)
  end.
End Run.
End Programs.

Arguments Prog : clear implicits.
Arguments Outcome : clear implicits.
Arguments Paused : clear implicits.

Declare Scope prog_scope.
Delimit Scope prog_scope with prog.
Bind Scope prog_scope with Prog.
Notation "c ;; k" := (Call c k)
  (at level 61, right associativity) : prog_scope.

(** [`${v}`] in a template literal. *)
Definition template (v : option string) : string :=
  match v with
  | Some s => s
  | None => "undefined"
  end.

Definition json_headers : list (string * string) :=
  [("Content-Type", "application/json")].

(** ** [CropsPage.tsx] *)

Module CropsPage.

(** The four [useState] cells of the component. *)
Record State : Type := {
  recommendations : option (list CropRecommendation);
  isLoading : bool;
  isGenerating : bool;
  error : option string
}.

Inductive Setter : Type :=
| setRecommendations (v : option (list CropRecommendation))
| setIsLoading (v : bool)
| setIsGenerating (v : bool)
| setError (v : option string).

Definition apply (c : Setter) (s : State) : State :=
  match c with
  | setRecommendations v =>
      {| recommendations := v; isLoading := isLoading s;
         isGenerating := isGenerating s; error := error s |}
  | setIsLoading v =>
      {| recommendations := recommendations s; isLoading := v;
         isGenerating := isGenerating s; error := error s |}
  | setIsGenerating v =>
      {| recommendations := recommendations s; isLoading := isLoading s;
         isGenerating := v; error := error s |}
  | setError v =>
      {| recommendations := recommendations s; isLoading := isLoading s;
         isGenerating := isGenerating s; error := v |}
  end.

(** The initial values given to [useState] (lines 47-50). *)
Definition initial : State :=
  {| recommendations := None; isLoading := true; isGenerating := false;
     error := None |}.

Section WithConfig.
(** [API_BASE_URL] of [../config], which is not part of the sources. *)
Variable API_BASE_URL : string.

Local Open Scope prog_scope.

Definition latest_request (id : option string) : Request :=
  {| method := GET;
     url := API_BASE_URL ++ "/recommendations/" ++ template id ++ "/latest";
     headers := [];
     body := None |}.

(** Lines 56-81.  [id] is the route parameter of [useParams]. *)
Definition checkExistingRecommendations (id : option string)
  : Prog Setter :=
  if falsy_string id then Done
  else
    finally
      (try_catch
         (setIsLoading true ;;
          fetch (latest_request id) (fun response =>
            if ok response then
              json_data response (fun data =>
                if match p_recommendations data with
                   | Some l => (0 <? length l)%nat
                   | None => false
                   end
                then setRecommendations (p_recommendations data) ;; Done
                else setRecommendations None ;; Done)
            else if (status response =? 404)%nat then
              setRecommendations None ;; Done
            else Throw (ErrorObject "Failed to check recommendations")))
         (fun err =>
            ConsoleError "Error checking recommendations:" err
              (setRecommendations None ;; Done)))
      (setIsLoading false ;; Done).

Definition generate_request (id : option string) (formData : FarmerFormData)
  : Request :=
  {| method := POST;
     url := API_BASE_URL ++ "/recommendations/generate";
     headers := json_headers;
     body := Some (GenerateJson (template id) formData) |}.

(** Lines 83-112. *)
Definition handleFormSubmit (id : option string) (formData : FarmerFormData)
  : Prog Setter :=
  if falsy_string id then Done
  else
    finally
      (try_catch
         (setIsGenerating true ;;
          setError None ;;
          fetch (generate_request id formData) (fun response =>
            if negb (ok response) then
              Throw (ErrorObject "Failed to generate recommendations")
            else
              json_data response (fun data =>
                setRecommendations (p_recommendations data) ;; Done)))
         (fun err =>
            setError (Some (message_or err "An error occurred")) ;; Done))
      (setIsGenerating false ;; Done).
End WithConfig.

(** What the component renders (lines 122-195): the spinner while loading,
    otherwise the error banner when [error] is truthy, and the farmer form
    or the grid of crop cards. *)
Inductive View : Type :=
| Spinner
| FarmerFormView (banner : option string) (formBusy : bool)
| CropGrid (banner : option string) (cards : list string).

(** [{error && ...}]: the banner is rendered for a truthy [error]. *)
Definition banner (s : State) : option string :=
  if falsy_string (error s) then None else error s.

Definition render (s : State) : View :=
  if isLoading s then Spinner
  else
    if falsy_object (recommendations s) then
      FarmerFormView (banner s) (isGenerating s)
    else
      CropGrid (banner s)
        (map crop (match recommendations s with Some l => l | None => [] end)).

End CropsPage.

(** ** The history detail page: "Load More" *)

Module HistoryDetailPage.

(** The values in scope of the handlers: the route parameter [sessionId],
    the sensor of the session and the state cells. *)
Record State : Type := {
  sessionId : option string;
  sensorId : option string;
  recommendations : list CropRecommendation;
  sensorData : option SensorData;
  error : option string;
  isLoadingMore : bool
}.

Inductive Setter : Type :=
| setRecommendations (v : list CropRecommendation)
| setSensorData (v : option SensorData)
| setError (v : option string)
| setIsLoadingMore (v : bool).

Definition apply (c : Setter) (s : State) : State :=
  match c with
  | setRecommendations v =>
      {| sessionId := sessionId s; sensorId := sensorId s;
         recommendations := v; sensorData := sensorData s;
         error := error s; isLoadingMore := isLoadingMore s |}
  | setSensorData v =>
      {| sessionId := sessionId s; sensorId := sensorId s;
         recommendations := recommendations s; sensorData := v;
         error := error s; isLoadingMore := isLoadingMore s |}
  | setError v =>
      {| sessionId := sessionId s; sensorId := sensorId s;
         recommendations := recommendations s; sensorData := sensorData s;
         error := v; isLoadingMore := isLoadingMore s |}
  | setIsLoadingMore v =>
      {| sessionId := sessionId s; sensorId := sensorId s;
         recommendations := recommendations s; sensorData := sensorData s;
         error := error s; isLoadingMore := v |}
  end.

Section WithConfig.
Variable API_BASE_URL : string.

Local Open Scope prog_scope.

Definition session_request (sessionId : option string) : Request :=
  {| method := GET;
     url := API_BASE_URL ++ "/recommendations/session/" ++ template sessionId;
     headers := [];
     body := None |}.

Definition sensor_request (sensor_id : option string) : Request :=
  {| method := GET;
     url := API_BASE_URL ++ "/sensors/" ++ template sensor_id;
     headers := [];
     body := None |}.

(** Modelled from the spec: the first part of [fetchSessionDetails], which
    the source elides ("existing code to fetch recommendations").  With
    the API reference of the implementation guide it is taken to request
    [GET /recommendations/session/{session_id}], to raise an error on a
    response that is not OK and to store the [recommendations] of the
    answer.  [rest] is the part of the function the source gives, run
    with the parsed session [data]. *)
Definition fetchSessionDetails_existing (st : State)
  (rest : Payload -> Prog Setter) : Prog Setter :=
  fetch (session_request (sessionId st)) (fun response =>
    if negb (ok response) then
      Throw (ErrorObject "Failed to fetch session details")
    else
      json_data response (fun data =>
        setRecommendations
          (match p_recommendations data with Some l => l | None => [] end) ;;
        rest data)).

(** Lines 257-272: after the session is fetched, the current readings of
    its sensor are fetched for "Load More". *)
Definition fetchSessionDetails (st : State) : Prog Setter :=
  fetchSessionDetails_existing st (fun data =>
    if falsy_string (p_sensor_id data) then Done
    else
      try_catch
        (fetch (sensor_request (p_sensor_id data)) (fun sensorResponse =>
           if ok sensorResponse then
             json_data sensorResponse (fun sensorInfo =>
               setSensorData (p_current_sensors sensorInfo) ;; Done)
           else Done))
        (fun err => ConsoleError "Failed to fetch sensor data:" err Done)).

(** The body of the POST of [handleLoadMore] (lines 296-302). *)
Definition readings_body (sensorData : SensorData)
  (alreadyGenerated : list string) : ReadingsBody :=
  {| body_soil_moisture_pct := soil_moisture_pct sensorData;
     body_temperature_c := temperature_c sensorData;
     body_humidity_pct := humidity_pct sensorData;
     body_light_lux := light_lux sensorData;
     already_generated := Some alreadyGenerated |}.

Definition readings_request (sensorId : option string)
  (sensorData : SensorData) (alreadyGenerated : list string) : Request :=
  {| method := POST;
     url := API_BASE_URL ++ "/recommendations/hardware/"
            ++ template sensorId ++ "/readings";
     headers := json_headers;
     body := Some (ReadingsJson (readings_body sensorData alreadyGenerated)) |}.

(** Lines 277-316. *)
Definition handleLoadMore (st : State) : Prog Setter :=
  if falsy_string (sensorId st) || falsy_object (sensorData st) then
    setError
      (Some "Cannot load more recommendations: sensor data not available") ;;
    Done
  else
    finally
      (try_catch
         (setIsLoadingMore true ;;
          setError None ;;
          let alreadyGenerated := map crop (recommendations st) in
          match sensorData st with
          | None => Throw (ErrorObject "sensorData is null")
          | Some sensorData =>
              fetch (readings_request (sensorId st) sensorData alreadyGenerated)
                (fun response =>
                   if negb (ok response) then
                     Throw (ErrorObject "Failed to generate more recommendations")
                   else fetchSessionDetails st)
          end)
         (fun err =>
            setError
              (Some (message_or err "Failed to load more recommendations")) ;;
            Done))
      (setIsLoadingMore false ;; Done).

(** Lines 277-316 once more, with the function awaited at line 310 as a
    parameter: the source gives only the end of [fetchSessionDetails]. *)
Definition handleLoadMore_with (fetchSessionDetails : State -> Prog Setter)
  (st : State) : Prog Setter :=
  if falsy_string (sensorId st) || falsy_object (sensorData st) then
    setError
      (Some "Cannot load more recommendations: sensor data not available") ;;
    Done
  else
    finally
      (try_catch
         (setIsLoadingMore true ;;
          setError None ;;
          let alreadyGenerated := map crop (recommendations st) in
          match sensorData st with
          | None =>
              (* not reached: the guard has excluded a null [sensorData] *)
              Throw (ErrorObject "sensorData is null")
          | Some sensorData =>
              fetch (readings_request (sensorId st) sensorData alreadyGenerated)
                (fun response =>
                   if negb (ok response) then
                     Throw (ErrorObject "Failed to generate more recommendations")
                   else fetchSessionDetails st)
          end)
         (fun err =>
            setError
              (Some (message_or err "Failed to load more recommendations")) ;;
            Done))
      (setIsLoadingMore false ;; Done).
End WithConfig.

(** The [disabled] attribute of the Load More button (line 326). *)
Definition LoadMoreButton_disabled (st : State) : bool :=
  isLoadingMore st || falsy_object (sensorData st).

(** *** The page between awaits

    A handler that reaches an [await] leaves its continuation with the
    browser; the response resumes it.  [in_flight] holds the requests not
    yet answered, in the order issued. *)
Record Page : Type := {
  ui : State;
  in_flight : list (Request * (FetchResult -> Prog Setter))
}.

Definition launch (p : Prog Setter) (pg : Page) : Page :=
  let '(s, paused) := advance apply p (ui pg) in
  match paused with
  | Finished _ => {| ui := s; in_flight := in_flight pg |}
  | Waiting req k => {| ui := s; in_flight := in_flight pg ++ [(req, k)] |}
  end.

Fixpoint remove_nth {A : Type} (i : nat) (l : list A) : list A :=
  match l, i with
  | [], _ => []
  | _ :: l', O => l'
  | x :: l', S i' => x :: remove_nth i' l'
  end.

(** What the browser holds of the page.  [rendered] is the state the last
    render showed: the attributes of the button and the closure of its
    handler come from it.  The setter calls go to the cells of [live], which
    the next render shows. *)
Record Tab : Type := {
  rendered : State;
  live : Page
}.

Inductive Event : Type :=
| ClickLoadMore
| Render
| Deliver (i : nat) (r : FetchResult).

Section WithConfig.
Variable API_BASE_URL : string.

(** A call of the handler of a render that shows the current state. *)
Definition call_handleLoadMore (pg : Page) : Page :=
  launch (handleLoadMore API_BASE_URL (ui pg)) pg.

(** A click on a page whose last render shows its current state: it
    reaches [onClick] only when the button is not disabled. *)
Definition click_LoadMore (pg : Page) : Page :=
  if LoadMoreButton_disabled (ui pg) then pg else call_handleLoadMore pg.

Definition deliver (i : nat) (r : FetchResult) (pg : Page) : Page :=
  match nth_error (in_flight pg) i with
  | None => pg
  | Some (_, k) =>
      launch (k r) {| ui := ui pg; in_flight := remove_nth i (in_flight pg) |}
  end.

(** A click at any time: the [disabled] attribute is the one of the last
    render, and the handler that runs is the one of that render; what it sets
    is not seen by a further click before the next render. *)
Definition click (t : Tab) : Tab :=
  if LoadMoreButton_disabled (rendered t) then t
  else
    {| rendered := rendered t;
       live := launch (handleLoadMore API_BASE_URL (rendered t)) (live t) |}.

(** The page is rendered again with the current state. *)
Definition rerender (t : Tab) : Tab :=
  {| rendered := ui (live t); live := live t |}.

Definition step (t : Tab) (ev : Event) : Tab :=
  match ev with
  | ClickLoadMore => click t
  | Render => rerender t
  | Deliver i r => {| rendered := rendered t; live := deliver i r (live t) |}
  end.

Definition steps (evs : list Event) (t : Tab) : Tab :=
  fold_left step evs t.
End WithConfig.

End HistoryDetailPage.

(** ** The endpoint [POST /recommendations/hardware/{sensor_id}/readings] *)

Module Endpoint.

Definition newline : string := String "010"%char EmptyString.

Definition first_batch_text : string := "None yet (this is the first batch)".

(** [auto_generate_recommendations], the fragment computing [crops_list]:
    [already_generated] is the optional field of [HardwareSensorData]. *)
Definition crops_list (already_generated : option (list string)) : string :=
  let already_generated_crops :=
    match already_generated with
    | None => []
    | Some [] => []
    | Some l => l
    end in
  if negb (match already_generated_crops with [] => true | _ => false end)
     && (0 <? length already_generated_crops)%nat
  then
    String.concat newline
      (map (fun crop => ("- " ++ crop)%string) already_generated_crops)
  else first_batch_text.

End Endpoint.

(** ** The backend as the client sees it *)

Module Backend.

(** Modelled from the spec: the backend that stores and serves the session
    is not part of the sources.  It keeps the recommendations of one
    session of one sensor; every successful generator call appends exactly
    one batch to them, in the order generated (the guide: "appends new crops
    to the same session").  [upcoming] lists the batches the generator will
    produce, [prompts] the exclusion texts it was given. *)
Record State : Type := {
  sensor_id : string;
  session_id : string;
  stored : list CropRecommendation;
  current_sensors : option SensorData;
  upcoming : list (list CropRecommendation);
  prompts : list string
}.

Definition empty_payload : Payload :=
  {| p_recommendations := None; p_sensor_id := None;
     p_current_sensors := None; p_top_3_crops := None;
     p_total_crops_generated := None |}.

(** [HardwareSensorData] declares the four readings as required floats. *)
Definition valid_readings (b : ReadingsBody) : bool :=
  match body_soil_moisture_pct b, body_temperature_c b,
        body_humidity_pct b, body_light_lux b with
  | Some _, Some _, Some _, Some _ => true
  | _, _, _, _ => false
  end.

Section WithConfig.
Variable API_BASE_URL : string.

(** Modelled from the spec: [POST .../hardware/{sensor_id}/readings]
    validates the body, formats the exclusion list with [crops_list],
    stores the generated batch after the stored ones and answers with the
    names of three crops and the size of the batch. *)
Definition post_readings (b : State) (rb : ReadingsBody)
  : FetchResult * State :=
  if negb (valid_readings rb) then
    (Resolved {| status := 422; response_body := ObjectJson empty_payload |}, b)
  else
    match upcoming b with
    | [] =>
        (Resolved {| status := 500; response_body := ObjectJson empty_payload |}, b)
    | batch :: later =>
        (Resolved
           {| status := 200;
              response_body :=
                ObjectJson
                  {| p_recommendations := None;
                     p_sensor_id := Some (sensor_id b);
                     p_current_sensors := None;
                     p_top_3_crops := Some (map crop (firstn 3 batch));
                     p_total_crops_generated := Some (length batch) |} |},
         {| sensor_id := sensor_id b; session_id := session_id b;
            stored := stored b ++ batch;
            current_sensors := current_sensors b;
            upcoming := later;
            prompts := prompts b
                       ++ [Endpoint.crops_list (already_generated rb)] |})
    end.

(** Modelled from the spec: [GET /recommendations/session/{session_id}]
    answers with the sensor of the session and all its recommendations. *)
Definition get_session (b : State) : FetchResult * State :=
  (Resolved
     {| status := 200;
        response_body :=
          ObjectJson
            {| p_recommendations := Some (stored b);
               p_sensor_id := Some (sensor_id b);
               p_current_sensors := None;
               p_top_3_crops := None;
               p_total_crops_generated := None |} |}, b).

(** Modelled from the spec: [GET /sensors/{sensor_id}] answers with the
    current readings of the sensor. *)
Definition get_sensor (b : State) : FetchResult * State :=
  (Resolved
     {| status := 200;
        response_body :=
          ObjectJson
            {| p_recommendations := None;
               p_sensor_id := Some (sensor_id b);
               p_current_sensors := current_sensors b;
               p_top_3_crops := None;
               p_total_crops_generated := None |} |}, b).

Definition not_found (b : State) : FetchResult * State :=
  (Resolved {| status := 404; response_body := ObjectJson empty_payload |}, b).

Definition respond (b : State) (req : Request) : FetchResult * State :=
  match method req, body req with
  | POST, Some (ReadingsJson rb) =>
      if String.eqb (url req)
           (API_BASE_URL ++ "/recommendations/hardware/"
            ++ sensor_id b ++ "/readings")
      then post_readings b rb
      else not_found b
  | GET, _ =>
      if String.eqb (url req)
           (API_BASE_URL ++ "/recommendations/session/" ++ session_id b)
      then get_session b
      else if String.eqb (url req)
                (API_BASE_URL ++ "/sensors/" ++ sensor_id b)
      then get_sensor b
      else not_found b
  | _, _ => not_found b
  end.
End WithConfig.

End Backend.

(** ** Vocabulary of the properties *)

(** An environment that answers the requests from a script, in order; when
    the script is exhausted the network is down. *)
Definition scripted (script : list FetchResult) (req : Request)
  : FetchResult * list FetchResult :=
  match script with
  | [] => (Rejected (ErrorObject "Failed to fetch"), [])
  | r :: script' => (r, script')
  end.

(** The [already_generated] property of the request [handleLoadMore] issues
    from the render [st], when it issues one. *)
Definition exclusion_sent (API_BASE_URL : string) (st : HistoryDetailPage.State)
  : option (list string) :=
  match snd (advance HistoryDetailPage.apply
               (HistoryDetailPage.handleLoadMore API_BASE_URL st) st) with
  | Waiting req _ =>
      match body req with
      | Some (ReadingsJson b) => already_generated b
      | _ => None
      end
  | Finished _ => None
  end.

(** The guard of [handleLoadMore] lets the call through. *)
Definition can_load_more (st : HistoryDetailPage.State) : bool :=
  negb (falsy_string (HistoryDetailPage.sensorId st)
        || falsy_object (HistoryDetailPage.sensorData st)).

(** The generator call of "Load More" failed: the request was rejected or the
    status of the response is not a success status. *)
Definition generation_failed (r : FetchResult) : bool :=
  match r with
  | Rejected _ => true
  | Resolved response => negb (ok response)
  end.

(** The message [handleLoadMore] reports for a failed generator call. *)
Definition load_more_message (r : FetchResult) : string :=
  match r with
  | Rejected reason => message_or reason "Failed to load more recommendations"
  | Resolved _ => "Failed to generate more recommendations"
  end.

(** The answer to [checkExistingRecommendations] carries recommendations: a
    response with a success status whose body is an object with a non-empty
    [recommendations] array. *)
Definition carries_recommendations (r : FetchResult)
  : option (list CropRecommendation) :=
  match r with
  | Rejected _ => None
  | Resolved response =>
      if ok response then
        match response_body response with
        | ObjectJson data =>
            match p_recommendations data with
            | Some (c :: l) => Some (c :: l)
            | _ => None
            end
        | _ => None
        end
      else None
  end.

(** The state of the crops page for "no recommendations yet": nothing to
    show, not loading, the other cells as they were. *)
Definition no_recommendations_yet (s : CropsPage.State) : CropsPage.State :=
  {| CropsPage.recommendations := None;
     CropsPage.isLoading := false;
     CropsPage.isGenerating := CropsPage.isGenerating s;
     CropsPage.error := CropsPage.error s |}.

(** The state a failed "Load More" leaves behind: the message in [error], the
    flag cleared, the other cells as they were. *)
Definition load_more_failed (st : HistoryDetailPage.State) (message : string)
  : HistoryDetailPage.State :=
  {| HistoryDetailPage.sessionId := HistoryDetailPage.sessionId st;
     HistoryDetailPage.sensorId := HistoryDetailPage.sensorId st;
     HistoryDetailPage.recommendations := HistoryDetailPage.recommendations st;
     HistoryDetailPage.sensorData := HistoryDetailPage.sensorData st;
     HistoryDetailPage.error := Some message;
     HistoryDetailPage.isLoadingMore := false |}.

(** The message [handleFormSubmit] reports for an answer it treats as a
    failure: a rejected request, a status that is not a success status, or a
    body that [response.json()] or the first property read rejects.  [None]
    for an answer it accepts. *)
Definition submission_failure (r : FetchResult) : option string :=
  match r with
  | Rejected reason => Some (message_or reason "An error occurred")
  | Resolved response =>
      if ok response then
        match response_body response with
        | Unparseable syntax_error => Some syntax_error
        | NullJson type_error => Some type_error
        | ObjectJson _ => None
        end
      else Some "Failed to generate recommendations"
  end.

(** All four readings are present. *)
Definition complete (sensor : SensorData) : bool :=
  match soil_moisture_pct sensor, temperature_c sensor,
        humidity_pct sensor, light_lux sensor with
  | Some _, Some _, Some _, Some _ => true
  | _, _, _, _ => false
  end.

(** The value of [isLoadingMore] after a setter call. *)
Definition flag_after (c : HistoryDetailPage.Setter) (busy : bool) : bool :=
  match c with
  | HistoryDetailPage.setIsLoadingMore v => v
  | _ => busy
  end.

(** A program that, started while [isLoadingMore] has the value [busy], never
    waits for a response with [isLoadingMore] false. *)
Inductive keeps_busy : bool -> Prog HistoryDetailPage.Setter -> Prop :=
| kb_done busy : keeps_busy busy Done
| kb_throw busy err : keeps_busy busy (Throw err)
| kb_call busy c k :
    keeps_busy (flag_after c busy) k -> keeps_busy busy (Call c k)
| kb_console busy label err k :
    keeps_busy busy k -> keeps_busy busy (ConsoleError label err k)
| kb_await req k :
    (forall r, keeps_busy true (k r)) -> keeps_busy true (Await req k).

(** A schedule in which the page is rendered again between any two clicks.
    [clicked] tells whether a click has come since the last render. *)
Fixpoint paced (clicked : bool) (evs : list HistoryDetailPage.Event) : bool :=
  match evs with
  | [] => true
  | HistoryDetailPage.ClickLoadMore :: evs' => negb clicked && paced true evs'
  | HistoryDetailPage.Render :: evs' => paced false evs'
  | HistoryDetailPage.Deliver _ _ :: evs' => paced clicked evs'
  end.

(** At most one request of "Load More" is in flight, and the flag is set
    while it is. *)
Definition single_flight (pg : HistoryDetailPage.Page) : Prop :=
  HistoryDetailPage.in_flight pg = []
  \/ exists req k,
       HistoryDetailPage.in_flight pg = [(req, k)]
       /\ HistoryDetailPage.isLoadingMore (HistoryDetailPage.ui pg) = true
       /\ forall r, keeps_busy true (k r).

(** ** Concrete data to evaluate the handlers on *)

Module Sample.

Definition base_url : string := "http://localhost:8000".

Definition no_scores : Scores :=
  {| overall_score := 0%float; confidence_pct := 0%float;
     env_score := 0%float; econ_score := 0%float;
     time_fit_score := 0%float; season_score := 0%float;
     labor_score := 0%float; risk_score := 0%float;
     market_score := 0%float |}.

Definition named (name : string) : CropRecommendation :=
  {| crop := name; searchable_name := None; image_url := None;
     scientific_name := ""; category := "Vegetables"; scores := no_scores;
     growth_requirements := JNull; tolerances := JNull; management := JNull;
     economics := JNull; market_strategy := JNull;
     planting_schedule := JNull; risk_assessment := JNull;
     reasoning := "" |}.

Definition readings : SensorData :=
  {| soil_moisture_pct := Some 45.5%float;
     temperature_c := Some 28.5%float;
     humidity_pct := Some 72.0%float;
     light_lux := Some 15000.0%float |}.

(** A reading without its [light_lux] property. *)
Definition partial_readings : SensorData :=
  {| soil_moisture_pct := Some 45.5%float;
     temperature_c := Some 28.5%float;
     humidity_pct := Some 72.0%float;
     light_lux := None |}.

Definition history (recs : list CropRecommendation)
  (sensor : option SensorData) : HistoryDetailPage.State :=
  {| HistoryDetailPage.sessionId := Some "session-1";
     HistoryDetailPage.sensorId := Some "SENSOR001";
     HistoryDetailPage.recommendations := recs;
     HistoryDetailPage.sensorData := sensor;
     HistoryDetailPage.error := None;
     HistoryDetailPage.isLoadingMore := false |}.

Definition backend (stored : list CropRecommendation)
  (upcoming : list (list CropRecommendation)) : Backend.State :=
  {| Backend.sensor_id := "SENSOR001";
     Backend.session_id := "session-1";
     Backend.stored := stored;
     Backend.current_sensors := Some readings;
     Backend.upcoming := upcoming;
     Backend.prompts := [] |}.

Definition answer (status : nat) (body : ResponseBody) : FetchResult :=
  Resolved {| status := status; response_body := body |}.

Definition session_payload (recs : list CropRecommendation)
  (sensor : option string) : ResponseBody :=
  ObjectJson
    {| p_recommendations := Some recs; p_sensor_id := sensor;
       p_current_sensors := None; p_top_3_crops := None;
       p_total_crops_generated := None |}.

Definition sensor_payload (sensor : option SensorData) : ResponseBody :=
  ObjectJson
    {| p_recommendations := None; p_sensor_id := None;
       p_current_sensors := sensor; p_top_3_crops := None;
       p_total_crops_generated := None |}.

Definition idle_page (recs : list CropRecommendation) : HistoryDetailPage.Page :=
  {| HistoryDetailPage.ui := history recs (Some readings);
     HistoryDetailPage.in_flight := [] |}.

Definition tomato : CropRecommendation := named "Tomato".
Definition okra : CropRecommendation := named "Okra".
Definition pechay : CropRecommendation := named "Pechay".

Definition farm : FarmerFormData :=
  {| crop_category := "Vegetables"; budget_php := 50000%float;
     waiting_tolerance_days := 90%float; land_size_ha := 1.5%float;
     manpower := 3%float |}.

End Sample.

From Stdlib Require DecimalString.

(** ** [App.tsx]: tabs and routes of [AnimatedRoutes] *)

Module AnimatedRoutes.

(** The rest of [s] after the literal [p], when [s] begins with it. *)
Fixpoint strip_prefix (p s : string) : option string :=
  match p, s with
  | EmptyString, _ => Some s
  | String a p', String b s' =>
      if Ascii.eqb a b then strip_prefix p' s' else None
  | String _ _, EmptyString => None
  end.

(** [s.includes(sub)] *)
Fixpoint includes (s sub : string) : bool :=
  match strip_prefix sub s with
  | Some _ => true
  | None =>
      match s with
      | EmptyString => false
      | String _ s' => includes s' sub
      end
  end.

(** The longest prefix matched by the character class [[^\/]]. *)
Fixpoint segment (s : string) : string :=
  match s with
  | EmptyString => EmptyString
  | String c s' =>
      if Ascii.eqb c "/"%char then EmptyString else String c (segment s')
  end.

(** What follows that prefix. *)
Fixpoint after_segment (s : string) : string :=
  match s with
  | EmptyString => EmptyString
  | String c s' => if Ascii.eqb c "/"%char then s else after_segment s'
  end.

(** The character class [\d]. *)
Definition is_digit (c : ascii) : bool :=
  ((48 <=? nat_of_ascii c) && (nat_of_ascii c <=? 57))%nat.

(** An attempt of [/\/greenhouse\/([^\/]+)/] at the start of [s]: the value
    of the group.  The class cannot take a slash and the group is the last
    item, so the greedy match is the only one. *)
Definition greenhouse_here (s : string) : option string :=
  match strip_prefix "/greenhouse/" s with
  | Some rest =>
      match segment rest with
      | EmptyString => None
      | id => Some id
      end
  | None => None
  end.

(** [pathname.match(/\/greenhouse\/([^\/]+)/)], as the group [match[1]] of
    the leftmost match, [None] for [null]. *)
Fixpoint match_greenhouse (s : string) : option string :=
  match greenhouse_here s with
  | Some id => Some id
  | None =>
      match s with
      | EmptyString => None
      | String _ s' => match_greenhouse s'
      end
  end.

(** An attempt of [/<root>[^\/]+\/crops\/\d+/] at the start of [s], for the
    literal [root].  The item after the class is a slash, so only the longest
    run of the class can be followed by it. *)
Definition crop_detail_here (root s : string) : bool :=
  match strip_prefix root s with
  | Some rest =>
      match segment rest with
      | EmptyString => false
      | _ =>
          match strip_prefix "/crops/" (after_segment rest) with
          | Some (String d _) => is_digit d
          | _ => false
          end
      end
  | None => false
  end.

(** Whether the expression matches somewhere in [s]. *)
Fixpoint crop_detail_match (root s : string) : bool :=
  crop_detail_here root s
  || match s with
     | EmptyString => false
     | String _ s' => crop_detail_match root s'
     end.

(** The location and the [activeTab] cell. *)
Record State : Type := {
  pathname : string;
  activeTab : string
}.

Definition setActiveTab (tab : string) (st : State) : State :=
  {| pathname := pathname st; activeTab := tab |}.

(** Line 86. *)
Definition isDetailPage (st : State) : bool :=
  includes (pathname st) "/greenhouse/".

(** Lines 88-91. *)
Definition shouldHideNavbar (st : State) : bool :=
  crop_detail_match "/greenhouse/" (pathname st)
  || crop_detail_match "/history/" (pathname st)
  || String.eqb (pathname st) "/settings".

(** The effect of lines 93-105, run for the current [pathname]. *)
Definition effect (st : State) : State :=
  if String.eqb (pathname st) "/" then setActiveTab "home" st
  else if String.eqb (pathname st) "/chat" then setActiveTab "chat" st
  else if includes (pathname st) "/crops" then setActiveTab "plant" st
  else if includes (pathname st) "/history" then setActiveTab "history" st
  else if includes (pathname st) "/greenhouse/" then setActiveTab "data" st
  else st.

(** [navigate(to)]: the location changes, and the effect, whose dependency
    is [location.pathname], runs when that string has changed. *)
Definition navigate (to : string) (st : State) : State :=
  if String.eqb to (pathname st) then st
  else effect {| pathname := to; activeTab := activeTab st |}.

(** Lines 107-127.  The values read are the ones of the render [st]. *)
Definition handleTabChange (tab : string) (st : State) : State :=
  let st' := setActiveTab tab st in
  if String.eqb tab "chat" then navigate "/chat" st'
  else if String.eqb tab "data" && isDetailPage st then
    match match_greenhouse (pathname st) with
    | Some id => navigate ("/greenhouse/" ++ id) st'
    | None => st'
    end
  else if String.eqb tab "plant" && isDetailPage st then
    match match_greenhouse (pathname st) with
    | Some id => navigate ("/greenhouse/" ++ id ++ "/crops") st'
    | None => st'
    end
  else if String.eqb tab "history" then navigate "/history" st'
  else if String.eqb tab "home" then navigate "/" st'
  else st'.

(** The earlier revision of the component (lines 12-58): its effect has no
    chat tab, its handler navigates for two tabs only and the bar is always
    rendered. *)
Definition effect_v1 (st : State) : State :=
  if String.eqb (pathname st) "/" then setActiveTab "home" st
  else if includes (pathname st) "/crops" then setActiveTab "plant" st
  else if includes (pathname st) "/history" then setActiveTab "history" st
  else if includes (pathname st) "/greenhouse/" then setActiveTab "data" st
  else st.

Definition navigate_v1 (to : string) (st : State) : State :=
  if String.eqb to (pathname st) then st
  else effect_v1 {| pathname := to; activeTab := activeTab st |}.

Definition handleTabChange_v1 (tab : string) (st : State) : State :=
  let st' := setActiveTab tab st in
  if String.eqb tab "plant" && isDetailPage st then
    match match_greenhouse (pathname st) with
    | Some id => navigate_v1 ("/greenhouse/" ++ id ++ "/crops") st'
    | None => st'
    end
  else if String.eqb tab "history" then navigate_v1 "/history" st'
  else st'.

End AnimatedRoutes.

(** ** [CropsPage.tsx]: where the page navigates *)

Module CropsPageLinks.

(** [`${index}`] for an array index. *)
Definition decimal (index : nat) : string :=
  DecimalString.NilZero.string_of_uint (Nat.to_uint index).

(** Lines 114-116: the path given to [navigate]. *)
Definition handleCropClick (id : option string) (index : nat) : string :=
  "/greenhouse/" ++ template id ++ "/crops/" ++ decimal index.

(** Lines 118-120. *)
Definition handleBack (id : option string) : string :=
  "/greenhouse/" ++ template id.

(** The [onClick] of the cards of the grid (lines 180-189): card [index]
    calls [handleCropClick(index)]. *)
Definition card_links (id : option string) (recs : list CropRecommendation)
  : list string :=
  map (handleCropClick id) (List.seq 0 (length recs)).

End CropsPageLinks.

(** ** Vocabulary of the further properties *)

(** A string without a slash: one path segment. *)
Fixpoint no_slash (s : string) : bool :=
  match s with
  | EmptyString => true
  | String c s' => negb (Ascii.eqb c "/"%char) && no_slash s'
  end.

(** A string without a line break. *)
Fixpoint one_line (s : string) : bool :=
  match s with
  | EmptyString => true
  | String c s' => negb (Ascii.eqb c "010"%char) && one_line s'
  end.

(** The lines of a text. *)
Fixpoint split_lines (s : string) : list string :=
  match s with
  | EmptyString => [EmptyString]
  | String c s' =>
      if Ascii.eqb c "010"%char then EmptyString :: split_lines s'
      else
        match split_lines s' with
        | [] => [String c EmptyString]
        | line :: rest => String c line :: rest
        end
  end.

(** The crops a prompt text lists: every line without its leading dash. *)
Definition listed_crops (text : string) : list string :=
  map (fun line =>
         match AnimatedRoutes.strip_prefix "- " line with
         | Some name => name
         | None => line
         end)
      (split_lines text).

(** One "Load More" of the page against the backend: the handler of the
    current render runs to its end. *)
Definition load_more_once (API_BASE_URL : string)
  (w : HistoryDetailPage.State * Backend.State)
  : HistoryDetailPage.State * Backend.State :=
  let o := run HistoryDetailPage.apply (Backend.respond API_BASE_URL)
             (HistoryDetailPage.handleLoadMore API_BASE_URL (fst w))
             (fst w) (snd w) in
  (final o, env o).

(** The exclusion texts of consecutive generator calls that start from the
    crops [shown] and receive [batches]: each lists all crops shown so far. *)
Fixpoint exclusion_texts (shown : list CropRecommendation)
  (batches : list (list CropRecommendation)) : list string :=
  match batches with
  | [] => []
  | batch :: later =>
      Endpoint.crops_list (Some (map crop shown))
      :: exclusion_texts (shown ++ batch) later
  end.

(** The page and the backend talk about the same session and sensor, the
    sensor has all its readings and the page has fetched them. *)
Definition attached (st : HistoryDetailPage.State) (b : Backend.State) : Prop :=
  HistoryDetailPage.sessionId st = Some (Backend.session_id b)
  /\ HistoryDetailPage.sensorId st = Some (Backend.sensor_id b)
  /\ Backend.sensor_id b <> ""
  /\ (exists sensor,
        Backend.current_sensors b = Some sensor
        /\ HistoryDetailPage.sensorData st = Some sensor
        /\ complete sensor = true).

(** * Properties *)

(** ** Hydration of the crops page *)

Section Hydration.
Variable API_BASE_URL : string.
Context {B : Type}.
Variable respond : B -> Request -> FetchResult * B.

Lemma not_ok_404 (response : Response) :
  status response = 404 -> ok response = false.
Proof.
  intros H. unfold ok. rewrite H. reflexivity.
Qed.

Lemma render_no_recommendations_yet (s : CropsPage.State) :
  CropsPage.render (no_recommendations_yet s)
  = CropsPage.FarmerFormView (CropsPage.banner s) (CropsPage.isGenerating s).
Proof. reflexivity. Qed.

(** C6. When the GET of the latest recommendations is answered with HTTP
    404, [checkExistingRecommendations] ends in the state "no
    recommendations yet": [recommendations] is [null], the loading flag is
    cleared and the farmer form is rendered; the [error] cell is left as it
    was, nothing is logged and no exception leaves the handler. *)
Theorem not_found_is_empty_collection
  (id : option string) (s : CropsPage.State) (b b' : B) (response : Response) :
  falsy_string id = false ->
  respond b (CropsPage.latest_request API_BASE_URL id) = (Resolved response, b') ->
  status response = 404 ->
  let o := run CropsPage.apply respond
             (CropsPage.checkExistingRecommendations API_BASE_URL id) s b in
  CropsPage.recommendations (final o) = None
  /\ CropsPage.isLoading (final o) = false
  /\ CropsPage.error (final o) = CropsPage.error s
  /\ console o = []
  /\ uncaught o = None
  /\ requests o = [CropsPage.latest_request API_BASE_URL id]
  /\ CropsPage.render (final o)
     = CropsPage.FarmerFormView (CropsPage.banner s) (CropsPage.isGenerating s).
Proof.
  intros Hid Hresp H404 o. subst o.
  unfold CropsPage.checkExistingRecommendations.
  rewrite Hid. cbn. rewrite Hresp. cbn.
  rewrite (not_ok_404 response H404), H404. cbn.
  repeat split.
Qed.

(** C10. Whatever the answer to the GET of the latest recommendations is
    (a rejected request, a status that is not OK, 404 or not, a body that
    does not parse, or an object whose [recommendations] is missing or
    empty), unless it carries a non-empty [recommendations] array the
    handler ends in the same state as for "no recommendations yet":
    [recommendations] is [null], the form is rendered and the [error] cell
    is never written. *)
Theorem hydration_failures_look_empty
  (id : option string) (s : CropsPage.State) (b b' : B) (r : FetchResult) :
  falsy_string id = false ->
  respond b (CropsPage.latest_request API_BASE_URL id) = (r, b') ->
  carries_recommendations r = None ->
  let o := run CropsPage.apply respond
             (CropsPage.checkExistingRecommendations API_BASE_URL id) s b in
  final o = no_recommendations_yet s
  /\ CropsPage.error (final o) = CropsPage.error s
  /\ uncaught o = None
  /\ CropsPage.render (final o)
     = CropsPage.FarmerFormView (CropsPage.banner s) (CropsPage.isGenerating s).
Proof.
  intros Hid Hresp Hnone o. subst o.
  unfold CropsPage.checkExistingRecommendations.
  rewrite Hid. cbn. rewrite Hresp. cbn.
  destruct r as [reason | response]; cbn.
  - repeat split.
  - cbn in Hnone.
    destruct (ok response) eqn:Hok; cbn.
    + unfold json_data.
      destruct (response_body response) as [m | m | data]; cbn;
        try (repeat split; fail).
      destruct (p_recommendations data) as [[| c l] |]; cbn;
        try discriminate Hnone; repeat split.
    + destruct (status response =? 404)%nat; cbn; repeat split.
Qed.

(** The other case: an answer that carries recommendations shows them. *)
Lemma hydration_shows_recommendations
  (id : option string) (s : CropsPage.State) (b b' : B) (r : FetchResult)
  (recs : list CropRecommendation) :
  falsy_string id = false ->
  respond b (CropsPage.latest_request API_BASE_URL id) = (r, b') ->
  carries_recommendations r = Some recs ->
  CropsPage.recommendations
    (final (run CropsPage.apply respond
              (CropsPage.checkExistingRecommendations API_BASE_URL id) s b))
  = Some recs.
Proof.
  intros Hid Hresp Hsome.
  unfold CropsPage.checkExistingRecommendations.
  rewrite Hid. cbn. rewrite Hresp. cbn.
  destruct r as [reason | response]; cbn in *; [discriminate |].
  destruct (ok response); [| discriminate]. cbn.
  unfold json_data.
  destruct (response_body response) as [m | m | data]; try discriminate.
  destruct (p_recommendations data) as [[| c l] |]; try discriminate.
  cbn. exact Hsome.
Qed.
End Hydration.

(** ** Load More: what the handler sends and what a failure leaves *)

Section LoadMore.
Variable API_BASE_URL : string.

Import HistoryDetailPage.

Lemma can_load_more_inv (st : State) :
  can_load_more st = true ->
  falsy_string (sensorId st) = false
  /\ exists sensor, sensorData st = Some sensor.
Proof.
  unfold can_load_more. intros H.
  apply negb_true_iff, orb_false_iff in H. destruct H as [Hid Hsd].
  split; [exact Hid |].
  destruct (sensorData st) as [sensor |]; [eauto | discriminate].
Qed.

(** A call that passes the guard sets the flag, clears the error and waits
    for the answer to its POST. *)
Lemma handleLoadMore_waits (st s : State) (sensor : SensorData) :
  falsy_string (sensorId st) = false ->
  sensorData st = Some sensor ->
  exists k,
    advance apply (handleLoadMore API_BASE_URL st) s
    = (apply (setError None) (apply (setIsLoadingMore true) s),
       Waiting
         (readings_request API_BASE_URL (sensorId st) sensor
            (map crop (recommendations st))) k).
Proof.
  intros Hid Hsd. unfold handleLoadMore.
  rewrite Hid, Hsd. cbn. eexists. reflexivity.
Qed.

(** C3. The exclusion list that [handleLoadMore] sends is the sequence of
    the [crop] names of the displayed collection, entry by entry in
    collection order, and it is a function of the collection alone: two
    renders with the same collection send the same list. *)
Theorem exclusion_list_is_names_in_order (st st' : State) :
  can_load_more st = true ->
  can_load_more st' = true ->
  recommendations st' = recommendations st ->
  exists names,
    exclusion_sent API_BASE_URL st = Some names
    /\ names = map crop (recommendations st)
    /\ length names = length (recommendations st)
    /\ (forall i,
          nth_error names i = option_map crop (nth_error (recommendations st) i))
    /\ exclusion_sent API_BASE_URL st' = Some names.
Proof.
  intros Hst Hst' Hsame.
  apply can_load_more_inv in Hst. destruct Hst as [Hid [sensor Hsd]].
  apply can_load_more_inv in Hst'. destruct Hst' as [Hid' [sensor' Hsd']].
  exists (map crop (recommendations st)).
  unfold exclusion_sent.
  destruct (handleLoadMore_waits st st sensor Hid Hsd) as [k Hk].
  destruct (handleLoadMore_waits st' st' sensor' Hid' Hsd') as [k' Hk'].
  rewrite Hk, Hk', Hsame. cbn.
  repeat split.
  - apply length_map.
  - intros i. apply nth_error_map.
Qed.

Context {B : Type}.
Variable respond : B -> Request -> FetchResult * B.

(** C7, as the code has it.  When the sensor of the session or its current
    readings are missing altogether, [handleLoadMore] fails locally: it
    reports "sensor data not available", issues no request and leaves the
    collection and the loading flag alone.  The four readings are not
    looked at one by one. *)
Theorem missing_sensor_data_fails_locally (st : State) (b : B) :
  falsy_string (sensorId st) = true \/ sensorData st = None ->
  let o := run apply respond (handleLoadMore API_BASE_URL st) st b in
  requests o = []
  /\ error (final o)
     = Some "Cannot load more recommendations: sensor data not available"
  /\ recommendations (final o) = recommendations st
  /\ isLoadingMore (final o) = isLoadingMore st
  /\ uncaught o = None
  /\ env o = b.
Proof.
  intros Hguard o. subst o. unfold handleLoadMore.
  destruct Hguard as [Hid | Hsd].
  - rewrite Hid. cbn. repeat split.
  - rewrite Hsd, orb_true_r. cbn. repeat split.
Qed.

(** The state a failed "Load More" leaves: the message is set, the flag is
    cleared, every other cell is the one of the render. *)
Lemma load_more_failure (st : State) (sensor : SensorData) (b b' : B)
  (r : FetchResult) :
  falsy_string (sensorId st) = false ->
  sensorData st = Some sensor ->
  respond b
    (readings_request API_BASE_URL (sensorId st) sensor
       (map crop (recommendations st))) = (r, b') ->
  generation_failed r = true ->
  let o := run apply respond (handleLoadMore API_BASE_URL st) st b in
  final o = load_more_failed st (load_more_message r)
  /\ requests o
     = [readings_request API_BASE_URL (sensorId st) sensor
          (map crop (recommendations st))]
  /\ uncaught o = None.
Proof.
  intros Hid Hsd Hresp Hfail o. subst o. unfold handleLoadMore.
  rewrite Hid, Hsd. cbn. rewrite Hresp.
  destruct r as [reason | response]; cbn in *.
  - repeat split.
  - rewrite Hfail. cbn. repeat split.
Qed.

(** C2, as the code has it.  When the generator call of "Load More" is
    rejected or answered with a status that is not a success status, the
    handler reports a message in [error], clears the loading flag, issues no
    further request and leaves the displayed collection as it was.  The
    form submission of the crops page does the same, also when the body of
    a successful response does not parse.  The body of the answer to the
    "Load More" call is never read. *)
Theorem failed_generation_keeps_collection :
  (forall (st : State) (sensor : SensorData) (b b' : B) (r : FetchResult),
      falsy_string (sensorId st) = false ->
      sensorData st = Some sensor ->
      respond b
        (readings_request API_BASE_URL (sensorId st) sensor
           (map crop (recommendations st))) = (r, b') ->
      generation_failed r = true ->
      let o := run apply respond (handleLoadMore API_BASE_URL st) st b in
      recommendations (final o) = recommendations st
      /\ error (final o) = Some (load_more_message r)
      /\ isLoadingMore (final o) = false
      /\ length (requests o) = 1
      /\ uncaught o = None)
  /\ (forall (id : option string) (formData : FarmerFormData)
         (s : CropsPage.State) (b b' : B) (r : FetchResult) (message : string),
        falsy_string id = false ->
        respond b (CropsPage.generate_request API_BASE_URL id formData)
        = (r, b') ->
        submission_failure r = Some message ->
        let o := run CropsPage.apply respond
                   (CropsPage.handleFormSubmit API_BASE_URL id formData) s b in
        CropsPage.recommendations (final o) = CropsPage.recommendations s
        /\ CropsPage.error (final o) = Some message
        /\ CropsPage.isGenerating (final o) = false
        /\ length (requests o) = 1
        /\ uncaught o = None).
Proof.
  split.
  - intros st sensor b b' r Hid Hsd Hresp Hfail o.
    destruct (load_more_failure st sensor b b' r Hid Hsd Hresp Hfail)
      as [Hfinal [Hreq Hunc]].
    subst o. rewrite Hfinal, Hreq, Hunc. repeat split.
  - intros id formData s b b' r message Hid Hresp Hfail o. subst o.
    unfold CropsPage.handleFormSubmit. rewrite Hid. cbn. rewrite Hresp.
    destruct r as [reason | response]; cbn in *.
    + injection Hfail as <-. repeat split.
    + destruct (ok response); cbn.
      * unfold json_data.
        destruct (response_body response) as [m | m | data];
          try discriminate Hfail; injection Hfail as <-; cbn; repeat split.
      * injection Hfail as <-. repeat split.
Qed.

Ltac break_match :=
  match goal with
  | |- context [match ?x with _ => _ end] =>
      lazymatch x with
      | context [match _ with _ => _ end] => fail
      | _ => destruct x eqn:?
      end
  end.

Ltac after_post :=
  repeat split;
  try (repeat constructor; fail); try discriminate; try (cbn; lia).

(** C5, as the code has it.  A call that passes the guard issues exactly
    one POST to the readings endpoint of the sensor, with the four readings
    and the exclusion list in its body, and it is the first request.  When
    that call fails nothing else is requested.  When it succeeds the next
    request fetches the session again, and when the answer is an OK object
    that names a sensor the current readings of that sensor are requested
    third and last; when it names none nothing follows.  In every case the
    requests after the POST are GETs and at most two. *)
Theorem one_generator_request (st : State) (sensor : SensorData) (b : B) :
  falsy_string (sensorId st) = false ->
  sensorData st = Some sensor ->
  let post :=
    readings_request API_BASE_URL (sensorId st) sensor
      (map crop (recommendations st)) in
  let posted := respond b post in
  let session := session_request API_BASE_URL (sessionId st) in
  let fetched := respond (snd posted) session in
  let o := run apply respond (handleLoadMore API_BASE_URL st) st b in
  exists rest,
    requests o = post :: rest
    /\ method post = POST
    /\ body post
       = Some (ReadingsJson
                 (readings_body sensor (map crop (recommendations st))))
    /\ Forall (fun req => method req = GET) rest
    /\ length rest <= 2
    /\ (generation_failed (fst posted) = true -> rest = [])
    /\ (generation_failed (fst posted) = false ->
        hd_error rest = Some session
        /\ forall (response : Response) (data : Payload),
             fst fetched = Resolved response ->
             ok response = true ->
             response_body response = ObjectJson data ->
             rest
             = session
               :: (if falsy_string (p_sensor_id data) then []
                   else [sensor_request API_BASE_URL (p_sensor_id data)])).
Proof.
intros Hid Hsd post posted session fetched o.
subst post posted session fetched o. unfold handleLoadMore.
rewrite Hid, Hsd. cbn.
destruct (respond b _) as [r b1] eqn:Hpost. cbn [fst snd].
destruct r as [reason | posted]; cbn.
{ exists []. after_post. }
destruct (ok posted) eqn:Hposted; cbn; [| exists []; after_post ].
destruct (respond b1 _) as [r2 b2] eqn:Hsession. cbn [fst].
destruct r2 as [reason | fetched]; cbn.
{ exists [session_request API_BASE_URL (sessionId st)]. after_post. }
destruct (ok fetched) eqn:Hfetched; cbn.
2:{ exists [session_request API_BASE_URL (sessionId st)]. after_post.
    intros response data Hr Hok. injection Hr as <-. congruence. }
unfold json_data.
destruct (response_body fetched) as [m | m | data] eqn:Hbody; cbn.
1,2: exists [session_request API_BASE_URL (sessionId st)]; after_post;
     intros response data Hr Hok Hb; injection Hr as <-; congruence.
destruct (falsy_string (p_sensor_id data)) eqn:Hnamed; cbn.
{ exists [session_request API_BASE_URL (sessionId st)]. after_post.
  intros response data' Hr Hok Hb. injection Hr as <-.
  rewrite Hbody in Hb. injection Hb as <-. rewrite Hnamed. reflexivity. }
exists [session_request API_BASE_URL (sessionId st);
        sensor_request API_BASE_URL (p_sensor_id data)].
destruct (respond b2 _) as [r3 b3] eqn:Hsensor.
destruct r3 as [reason | [code [m | m | info]]]; cbn;
  try destruct (ok {| status := code; response_body := _ |}); cbn;
  after_post;
  intros response data' Hr Hok Hb; injection Hr as <-;
  rewrite Hbody in Hb; injection Hb as <-; rewrite Hnamed; reflexivity.
Qed.
End LoadMore.


(** ** Load More against the backend: growth of the collection *)

Section Growth.
Variable API_BASE_URL : string.

Import HistoryDetailPage.

Local Arguments falsy_string : simpl never.

Lemma nonempty_truthy (s : string) : s <> "" -> falsy_string (Some s) = false.
Proof.
destruct s; [congruence | reflexivity].
Qed.

Lemma valid_complete (sensor : SensorData) (names : list string) :
  Backend.valid_readings (readings_body sensor names) = complete sensor.
Proof. reflexivity. Qed.

(** A successful "Load More" against the backend: the batch is stored after
    the stored session and the page shows the session it fetches again. *)
Lemma load_more_run (st : State) (sensor : SensorData) (b : Backend.State)
  (batch : list CropRecommendation) (later : list (list CropRecommendation)) :
  sessionId st = Some (Backend.session_id b) ->
  sensorId st = Some (Backend.sensor_id b) ->
  Backend.sensor_id b <> "" ->
  sensorData st = Some sensor ->
  complete sensor = true ->
  Backend.upcoming b = batch :: later ->
  let o := run apply (Backend.respond API_BASE_URL)
             (handleLoadMore API_BASE_URL st) st b in
  recommendations (final o) = Backend.stored b ++ batch
  /\ Backend.stored (env o) = Backend.stored b ++ batch
  /\ Backend.upcoming (env o) = later
  /\ error (final o) = None
  /\ isLoadingMore (final o) = false
  /\ uncaught o = None
  /\ length (filter (fun req => match method req with POST => true | GET => false end)
               (requests o)) = 1.
Proof.
intros Hsession Hsensor Hname Hsd Hcomplete Hup o. subst o.
unfold handleLoadMore.
rewrite Hsd, Hsensor, (nonempty_truthy _ Hname). cbn.
rewrite String.eqb_refl.
unfold Backend.post_readings.
rewrite valid_complete, Hcomplete, Hup. cbn.
rewrite Hsession. cbn. rewrite String.eqb_refl. cbn.
rewrite (nonempty_truthy _ Hname). cbn.
destruct (String.eqb _ _); cbn.
- repeat split.
- rewrite String.eqb_refl. cbn. repeat split.
Qed.
(** C1, as the code has it.  [handleLoadMore] does not concatenate: after a
    successful generator call it shows the session it fetches again, which is
    the session the backend had stored followed by the batch, in the order
    generated, and the page then shows what is stored.  When the displayed collection was that stored session, the
    result has the length of the collection plus the length of the batch,
    begins with the entries of the collection in their order and ends with
    the batch. *)
Theorem load_more_appends_batch_to_session (st : State) (sensor : SensorData)
  (b : Backend.State) (batch : list CropRecommendation)
  (later : list (list CropRecommendation)) :
  sessionId st = Some (Backend.session_id b) ->
  sensorId st = Some (Backend.sensor_id b) ->
  Backend.sensor_id b <> "" ->
  sensorData st = Some sensor ->
  complete sensor = true ->
  Backend.upcoming b = batch :: later ->
  let o := run apply (Backend.respond API_BASE_URL)
             (handleLoadMore API_BASE_URL st) st b in
  recommendations (final o) = Backend.stored b ++ batch
  /\ recommendations (final o) = Backend.stored (env o)
  /\ (recommendations st = Backend.stored b ->
      length (recommendations (final o))
      = length (recommendations st) + length batch
      /\ firstn (length (recommendations st)) (recommendations (final o))
         = recommendations st
      /\ skipn (length (recommendations st)) (recommendations (final o))
         = batch).
Proof.
intros Hsession Hsensor Hname Hsd Hcomplete Hup o.
destruct (load_more_run st sensor b batch later
            Hsession Hsensor Hname Hsd Hcomplete Hup) as [Hrecs [Hstored _]].
fold o in Hrecs, Hstored. split; [exact Hrecs |].
split; [rewrite Hstored; exact Hrecs |].
intros Hsync. rewrite Hrecs, Hsync.
split; [apply length_app |].
split.
- rewrite firstn_app, Nat.sub_diag, firstn_all. cbn. apply app_nil_r.
- rewrite skipn_app, Nat.sub_diag, skipn_all. reflexivity.
Qed.

End Growth.

(** ** The exclusion list on an empty collection *)

Section Sentinel.
Variable API_BASE_URL : string.

Import HistoryDetailPage.

Lemma exclusion_sent_names (st : State) :
  can_load_more st = true ->
  exclusion_sent API_BASE_URL st = Some (map crop (recommendations st)).
Proof.
intros Hst. apply can_load_more_inv in Hst. destruct Hst as [Hid [sensor Hsd]].
unfold exclusion_sent.
destruct (handleLoadMore_waits API_BASE_URL st st sensor Hid Hsd) as [k Hk].
rewrite Hk. reflexivity.
Qed.

Lemma crops_list_nonempty (names : list string) :
  names <> [] ->
  exists text, Endpoint.crops_list (Some names) = String "-"%char text.
Proof.
destruct names as [| n [| m rest]]; [congruence | |]; intros _; cbn;
  eexists; reflexivity.
Qed.

(** C4, as the code has it.  For an empty collection [handleLoadMore] sends
    an empty [already_generated] array; it is the endpoint that turns an
    empty or omitted list into the text "None yet (this is the first batch)"
    of the prompt.  For a list that is not empty the text of the prompt is
    not that sentinel and not empty, and for the collection of the one crop
    "Tomato" the array sent is ["Tomato"] and the text is "- Tomato". *)
Theorem first_batch_text_is_built_by_endpoint :
  (forall st : State,
      can_load_more st = true ->
      recommendations st = [] ->
      exclusion_sent API_BASE_URL st = Some []
      /\ Endpoint.crops_list (exclusion_sent API_BASE_URL st)
         = "None yet (this is the first batch)")
  /\ Endpoint.crops_list None = "None yet (this is the first batch)"
  /\ (forall names : list string,
        names <> [] ->
        Endpoint.crops_list (Some names) <> "None yet (this is the first batch)"
        /\ Endpoint.crops_list (Some names) <> "")
  /\ (forall (st : State) (c : CropRecommendation),
        can_load_more st = true ->
        recommendations st = [c] ->
        crop c = "Tomato" ->
        exclusion_sent API_BASE_URL st = Some ["Tomato"]
        /\ Endpoint.crops_list (exclusion_sent API_BASE_URL st) = "- Tomato").
Proof.
split; [| split; [| split]].
- intros st Hst Hrecs. rewrite (exclusion_sent_names st Hst), Hrecs.
  split; reflexivity.
- reflexivity.
- intros names Hne. destruct (crops_list_nonempty names Hne) as [text Htext].
  rewrite Htext. split; discriminate.
- intros st c Hst Hrecs Hname. rewrite (exclusion_sent_names st Hst), Hrecs.
  cbn. rewrite Hname. split; reflexivity.
Qed.
End Sentinel.

(** ** Load More operations in flight *)

Section SingleFlight.
Variable API_BASE_URL : string.

Import HistoryDetailPage.

Lemma isLoadingMore_apply (c : Setter) (s : State) :
  isLoadingMore (apply c s) = flag_after c (isLoadingMore s).
Proof. destruct c; reflexivity. Qed.

Lemma launch_call (c : Setter) (k : Prog Setter) (pg : Page) :
  launch (Call c k) pg
  = launch k {| ui := apply c (ui pg); in_flight := in_flight pg |}.
Proof. reflexivity. Qed.

Lemma launch_console (label : string) (err : Thrown) (k : Prog Setter)
  (pg : Page) :
  launch (ConsoleError label err k) pg = launch k pg.
Proof. reflexivity. Qed.

(** Launching a program that keeps the flag, on a page with nothing in
    flight, leaves at most its own request in flight. *)
Lemma launch_single_flight (busy : bool) (p : Prog Setter) :
  keeps_busy busy p ->
  forall pg : Page,
    isLoadingMore (ui pg) = busy ->
    in_flight pg = [] ->
    single_flight (launch p pg).
Proof.
induction 1 as [busy | busy err | busy c k _ IH | busy label err k _ IH
               | req k Hk _]; intros pg Hflag Hidle.
- left. exact Hidle.
- left. exact Hidle.
- rewrite launch_call. apply IH; cbn.
  + rewrite isLoadingMore_apply, Hflag. reflexivity.
  + exact Hidle.
- rewrite launch_console. apply IH; assumption.
- right. exists req, k. unfold launch. cbn. rewrite Hidle.
  repeat split; assumption.
Qed.

Ltac break_busy :=
  match goal with
  | |- keeps_busy _ (match ?x with _ => _ end) => destruct x
  | |- keeps_busy _ (try_catch (match ?x with _ => _ end) _) => destruct x
  | |- keeps_busy _ (finally (match ?x with _ => _ end) _) => destruct x
  | |- keeps_busy _ (finally (try_catch (match ?x with _ => _ end) _) _) =>
      destruct x
  | |- keeps_busy _ (finally (try_catch (try_catch (match ?x with _ => _ end) _) _) _) =>
      destruct x
  end.

(** [handleLoadMore] sets the flag before its first request and clears it
    only when it is over. *)
Lemma handleLoadMore_keeps_busy (st : State) (busy : bool) :
  keeps_busy busy (handleLoadMore API_BASE_URL st).
Proof.
unfold handleLoadMore, fetchSessionDetails, fetchSessionDetails_existing,
  fetch, json_data.
destruct (falsy_string (sensorId st) || falsy_object (sensorData st)).
- repeat constructor.
- repeat (cbn; first [ constructor | intros ? | break_busy ]).
Qed.

Lemma deliver_single_flight (pg : Page) (i : nat) (r : FetchResult) :
  single_flight pg -> single_flight (deliver i r pg).
Proof.
intros Hinv. unfold deliver.
destruct Hinv as [Hidle | [req [k [Hone [Hbusy Hk]]]]].
- rewrite Hidle. destruct i; left; exact Hidle.
- rewrite Hone. destruct i as [| i]; cbn.
  + apply (launch_single_flight true); [apply Hk | exact Hbusy | reflexivity].
  + destruct i; right; exists req, k; repeat split; assumption.
Qed.

Lemma single_flight_length (pg : Page) :
  single_flight pg -> length (in_flight pg) <= 1.
Proof.
intros [Hidle | [req [k [Hone _]]]]; [rewrite Hidle | rewrite Hone]; cbn; lia.
Qed.

(** On a schedule with a render between any two clicks the page stays
    single-flight: when no click has come since the last render and that
    render showed the flag cleared, nothing is in flight. *)
Lemma steps_paced (evs : list Event) :
  forall (t : Tab) (clicked : bool),
    single_flight (live t) ->
    (clicked = false ->
     isLoadingMore (rendered t) = false -> in_flight (live t) = []) ->
    paced clicked evs = true ->
    single_flight (live (steps API_BASE_URL evs t)).
Proof.
induction evs as [| ev evs IH]; intros t clicked Hinv Hfresh Hpaced;
  [exact Hinv |].
destruct ev as [| | i r]; cbn [paced] in Hpaced; cbn [steps fold_left step].
- apply andb_true_iff in Hpaced. destruct Hpaced as [Hclicked Hpaced].
  apply negb_true_iff in Hclicked.
  apply (IH _ true); [| discriminate | exact Hpaced].
  unfold click, LoadMoreButton_disabled.
  destruct (isLoadingMore (rendered t)) eqn:Hflag; cbn; [exact Hinv |].
  destruct (falsy_object (sensorData (rendered t))); [exact Hinv |].
  cbn [live].
  apply (launch_single_flight (isLoadingMore (ui (live t)))).
  + apply handleLoadMore_keeps_busy.
  + reflexivity.
  + exact (Hfresh Hclicked eq_refl).
- apply (IH _ false); [exact Hinv | | exact Hpaced].
  intros _ Hshown. cbn [rerender rendered live] in *.
  destruct Hinv as [Hidle | [req [k [_ [Hbusy _]]]]]; [exact Hidle |].
  congruence.
- apply (IH _ clicked); [| | exact Hpaced]; cbn [rendered live].
  + apply deliver_single_flight. exact Hinv.
  + intros Hclicked Hshown. unfold deliver.
    rewrite (Hfresh Hclicked Hshown). destruct i; apply (Hfresh Hclicked Hshown).
Qed.

(** A click on a rendered page that passes the guard leaves the POST of its
    handler in flight, computed from the collection of the render. *)
Lemma click_launches (t : Tab) (sensor : SensorData) :
  isLoadingMore (rendered t) = false ->
  falsy_string (sensorId (rendered t)) = false ->
  sensorData (rendered t) = Some sensor ->
  exists k,
    click API_BASE_URL t
    = {| rendered := rendered t;
         live :=
           {| ui := apply (setError None)
                      (apply (setIsLoadingMore true) (ui (live t)));
              in_flight :=
                in_flight (live t)
                ++ [(readings_request API_BASE_URL (sensorId (rendered t)) sensor
                       (map crop (recommendations (rendered t))), k)] |} |}.
Proof.
intros Hflag Hid Hsd. unfold click, LoadMoreButton_disabled, launch.
rewrite Hflag, Hsd. cbn [orb falsy_object].
destruct (handleLoadMore_waits API_BASE_URL (rendered t) (ui (live t)) sensor
            Hid Hsd) as [k Hk].
rewrite Hk. exists k. reflexivity.
Qed.

(** C9. Nothing in [handleLoadMore] looks at [isLoadingMore]: a call that
    passes the guard issues its request also while the flag is set.  The
    [disabled] attribute of the button is the one of the last render, so two
    clicks that come before the page is rendered again both reach the
    handler of that render: two "Load More" requests are then in flight at
    the same time, and both carry the exclusion list computed from the same
    collection. *)
Theorem two_load_more_in_flight (t : Tab) (sensor : SensorData) :
  in_flight (live t) = [] ->
  isLoadingMore (rendered t) = false ->
  falsy_string (sensorId (rendered t)) = false ->
  sensorData (rendered t) = Some sensor ->
  let req :=
    readings_request API_BASE_URL (sensorId (rendered t)) sensor
      (map crop (recommendations (rendered t))) in
  (exists k1 k2,
      in_flight (live (steps API_BASE_URL [ClickLoadMore; ClickLoadMore] t))
      = [(req, k1); (req, k2)])
  /\ body req
     = Some (ReadingsJson
               (readings_body sensor (map crop (recommendations (rendered t)))))
  /\ (forall s : State,
        isLoadingMore s = true ->
        exists k,
          snd (advance apply (handleLoadMore API_BASE_URL (rendered t)) s)
          = Waiting req k).
Proof.
intros Hidle Hflag Hid Hsd req. subst req. split; [| split].
- destruct (click_launches t sensor Hflag Hid Hsd) as [k1 Hk1].
  change (steps API_BASE_URL [ClickLoadMore; ClickLoadMore] t)
    with (click API_BASE_URL (click API_BASE_URL t)).
  rewrite Hk1.
  match goal with
  | |- context [click API_BASE_URL ?t1] =>
      destruct (click_launches t1 sensor Hflag Hid Hsd) as [k2 Hk2];
      rewrite Hk2
  end.
  exists k1, k2. cbn. rewrite Hidle. reflexivity.
- reflexivity.
- intros s _.
  destruct (handleLoadMore_waits API_BASE_URL (rendered t) s sensor Hid Hsd)
    as [k Hk].
  rewrite Hk. exists k. reflexivity.
Qed.

(** X17. The button does guard the page from the next render on: on every
    schedule of clicks, renders and answers in which the page is rendered
    again between any two clicks, at most one "Load More" operation is in
    flight at any time. *)
Theorem paced_clicks_are_single_flight (evs : list Event) (t : Tab) :
  in_flight (live t) = [] ->
  paced false evs = true ->
  length (in_flight (live (steps API_BASE_URL evs t))) <= 1.
Proof.
intros Hidle Hpaced.
apply single_flight_length, (steps_paced evs t false);
  [left; exact Hidle | intros _ _; exact Hidle | exact Hpaced].
Qed.
End SingleFlight.

(** * The properties on concrete runs *)

Module Runs.
Import Sample.

(** C1, as stated, fails: the page shows one crop, the session has grown to
    two in the meantime, the generator returns one crop.  The result is the
    session fetched again, three entries, not the one of the page followed by
    the one of the batch. *)
Lemma stale_collection_is_replaced :
  let st := history [tomato] (Some readings) in
  let b := backend [tomato; okra] [[pechay]] in
  let o := run HistoryDetailPage.apply (Backend.respond base_url)
             (HistoryDetailPage.handleLoadMore base_url st) st b in
  HistoryDetailPage.recommendations (final o) = [tomato; okra; pechay]
  /\ length (HistoryDetailPage.recommendations (final o)) = 3
  /\ length (HistoryDetailPage.recommendations st) + length [pechay] = 2
  /\ HistoryDetailPage.error (final o) = None.
Proof. vm_compute. repeat split. Qed.

Lemma load_more_appends_batch_to_session_witness :
  let st := history [tomato] (Some readings) in
  let b := backend [tomato] [[okra; pechay]] in
  let o := run HistoryDetailPage.apply (Backend.respond base_url)
             (HistoryDetailPage.handleLoadMore base_url st) st b in
  HistoryDetailPage.recommendations st = Backend.stored b
  /\ HistoryDetailPage.recommendations (final o) = [tomato; okra; pechay]
  /\ length (HistoryDetailPage.recommendations (final o)) = 1 + 2
  /\ firstn 1 (HistoryDetailPage.recommendations (final o)) = [tomato]
  /\ skipn 1 (HistoryDetailPage.recommendations (final o)) = [okra; pechay].
Proof.
intros st b o.
assert (Hname : Backend.sensor_id b <> "") by discriminate.
destruct (load_more_appends_batch_to_session base_url st readings b
            [okra; pechay] [] eq_refl eq_refl Hname eq_refl eq_refl eq_refl)
  as [Hrecs [_ Hsync]].
destruct (Hsync eq_refl) as [Hlen [Hfirst Hskip]].
split; [reflexivity |].
split; [exact Hrecs |].
split; [exact Hlen |].
split; [exact Hfirst | exact Hskip].
Defined.

(** C2, as stated, fails for a malformed payload: the generator answers 200
    with a body that is not JSON.  [handleLoadMore] never reads the body, goes
    on to fetch the session and reports no error. *)
Lemma unread_payload_counts_as_success :
  let st := history [tomato] (Some readings) in
  let script :=
    [answer 200 (Unparseable "Unexpected token < in JSON at position 0");
     answer 200 (session_payload [tomato] None)] in
  let o := run HistoryDetailPage.apply scripted
             (HistoryDetailPage.handleLoadMore base_url st) st script in
  HistoryDetailPage.error (final o) = None
  /\ uncaught o = None
  /\ length (requests o) = 2.
Proof. vm_compute. repeat split. Qed.

Lemma failed_generation_keeps_collection_witness :
  let st := history [tomato] (Some readings) in
  let script := [answer 500 (Unparseable "Internal Server Error")] in
  let o := run HistoryDetailPage.apply scripted
             (HistoryDetailPage.handleLoadMore base_url st) st script in
  HistoryDetailPage.recommendations (final o) = [tomato]
  /\ HistoryDetailPage.error (final o)
     = Some "Failed to generate more recommendations"
  /\ HistoryDetailPage.isLoadingMore (final o) = false
  /\ length (requests o) = 1
  /\ uncaught o = None.
Proof.
intros st script o.
destruct (failed_generation_keeps_collection base_url scripted) as [Hload _].
exact (Hload st readings script []
         (answer 500 (Unparseable "Internal Server Error"))
         eq_refl eq_refl eq_refl eq_refl).
Defined.

Lemma exclusion_list_is_names_in_order_witness :
  let st := history [tomato; okra] (Some readings) in
  let st' := history [tomato; okra] (Some partial_readings) in
  exists names,
    exclusion_sent base_url st = Some names
    /\ names = ["Tomato"; "Okra"]
    /\ length names = 2
    /\ (forall i, nth_error names i = option_map crop (nth_error [tomato; okra] i))
    /\ exclusion_sent base_url st' = Some names.
Proof.
intros st st'.
exact (exclusion_list_is_names_in_order base_url st st' eq_refl eq_refl eq_refl).
Defined.

(** C4, as stated, fails: for an empty collection the array sent is the
    empty array. *)
Lemma empty_collection_sends_empty_array :
  exclusion_sent base_url (history [] (Some readings)) = Some [].
Proof. reflexivity. Qed.

Lemma first_batch_text_is_built_by_endpoint_witness :
  let st := history [tomato] (Some readings) in
  exclusion_sent base_url st = Some ["Tomato"]
  /\ Endpoint.crops_list (exclusion_sent base_url st) = "- Tomato"
  /\ Endpoint.crops_list (exclusion_sent base_url (history [] (Some readings)))
     = "None yet (this is the first batch)".
Proof.
intros st.
destruct (first_batch_text_is_built_by_endpoint base_url)
  as [Hempty [_ [_ Htomato]]].
destruct (Htomato st tomato eq_refl eq_refl eq_refl) as [Hsent Htext].
destruct (Hempty (history [] (Some readings)) eq_refl eq_refl) as [_ Hfirst].
split; [exact Hsent |]. split; [exact Htext | exact Hfirst].
Defined.

(** C5, as stated, fails: a successful "Load More" issues three requests,
    the POST to the generator and two GETs after it. *)
Lemma load_more_issues_three_requests :
  let st := history [tomato] (Some readings) in
  let script :=
    [answer 200 (ObjectJson Backend.empty_payload);
     answer 200 (session_payload [tomato; okra] (Some "SENSOR001"));
     answer 200 (sensor_payload (Some readings))] in
  let o := run HistoryDetailPage.apply scripted
             (HistoryDetailPage.handleLoadMore base_url st) st script in
  map (fun req => (method req, url req)) (requests o)
  = [(POST, "http://localhost:8000/recommendations/hardware/SENSOR001/readings");
     (GET, "http://localhost:8000/recommendations/session/session-1");
     (GET, "http://localhost:8000/sensors/SENSOR001")]
  /\ env o = [].
Proof. split; reflexivity. Qed.

Lemma one_generator_request_witness :
  let st := history [tomato] (Some readings) in
  let script :=
    [answer 200 (ObjectJson Backend.empty_payload);
     answer 200 (session_payload [tomato; okra] (Some "SENSOR001"));
     answer 200 (sensor_payload (Some readings))] in
  let o := run HistoryDetailPage.apply scripted
             (HistoryDetailPage.handleLoadMore base_url st) st script in
  let down := run HistoryDetailPage.apply scripted
                (HistoryDetailPage.handleLoadMore base_url st) st [] in
  requests o
  = [HistoryDetailPage.readings_request base_url (Some "SENSOR001") readings
       ["Tomato"];
     HistoryDetailPage.session_request base_url (Some "session-1");
     HistoryDetailPage.sensor_request base_url (Some "SENSOR001")]
  /\ requests down
     = [HistoryDetailPage.readings_request base_url (Some "SENSOR001") readings
          ["Tomato"]].
Proof.
intros st script o down. split.
- destruct (one_generator_request base_url scripted st readings script
              eq_refl eq_refl) as [rest [Hreq [_ [_ [_ [_ [_ Hok]]]]]]].
  destruct (Hok eq_refl) as [_ Hrest].
  fold o in Hreq. rewrite Hreq.
  rewrite (Hrest
             {| status := 200;
                response_body :=
                  session_payload [tomato; okra] (Some "SENSOR001") |}
             {| p_recommendations := Some [tomato; okra];
                p_sensor_id := Some "SENSOR001";
                p_current_sensors := None; p_top_3_crops := None;
                p_total_crops_generated := None |}
             eq_refl eq_refl eq_refl).
  reflexivity.
- destruct (one_generator_request base_url scripted st readings []
              eq_refl eq_refl) as [rest [Hreq [_ [_ [_ [_ [Hfail _]]]]]]].
  fold down in Hreq. rewrite Hreq, (Hfail eq_refl). reflexivity.
Defined.

Lemma not_found_is_empty_collection_witness :
  let script := [answer 404 (Unparseable "Not Found")] in
  let o := run CropsPage.apply scripted
             (CropsPage.checkExistingRecommendations base_url (Some "SENSOR001"))
             CropsPage.initial script in
  CropsPage.recommendations (final o) = None
  /\ CropsPage.isLoading (final o) = false
  /\ CropsPage.error (final o) = None
  /\ console o = []
  /\ uncaught o = None
  /\ requests o = [CropsPage.latest_request base_url (Some "SENSOR001")]
  /\ CropsPage.render (final o) = CropsPage.FarmerFormView None false.
Proof.
intros script o.
exact (not_found_is_empty_collection base_url scripted (Some "SENSOR001")
         CropsPage.initial script []
         {| status := 404; response_body := Unparseable "Not Found" |}
         eq_refl eq_refl eq_refl).
Defined.

Lemma hydration_failures_look_empty_witness :
  let o := run CropsPage.apply scripted
             (CropsPage.checkExistingRecommendations base_url (Some "SENSOR001"))
             CropsPage.initial [] in
  final o = no_recommendations_yet CropsPage.initial
  /\ CropsPage.error (final o) = None
  /\ uncaught o = None
  /\ CropsPage.render (final o) = CropsPage.FarmerFormView None false.
Proof.
intros o.
exact (hydration_failures_look_empty base_url scripted (Some "SENSOR001")
         CropsPage.initial [] [] (Rejected (ErrorObject "Failed to fetch"))
         eq_refl eq_refl eq_refl).
Defined.

(** C7, as stated, fails: the reading has no [light_lux], the guard lets the
    call through and the request is issued without that property. *)
Lemma partial_reading_is_posted :
  let st := history [] (Some partial_readings) in
  let o := run HistoryDetailPage.apply scripted
             (HistoryDetailPage.handleLoadMore base_url st) st [] in
  light_lux partial_readings = None
  /\ requests o
     = [HistoryDetailPage.readings_request base_url (Some "SENSOR001")
          partial_readings []]
  /\ option_map
       (fun b => match b with
                 | ReadingsJson rb => body_light_lux rb
                 | GenerateJson _ _ => None
                 end)
       (body (HistoryDetailPage.readings_request base_url (Some "SENSOR001")
                partial_readings []))
     = Some None.
Proof. repeat split. Qed.

Lemma missing_sensor_data_fails_locally_witness :
  let st := history [tomato] None in
  let b := backend [tomato] [[okra]] in
  let o := run HistoryDetailPage.apply (Backend.respond base_url)
             (HistoryDetailPage.handleLoadMore base_url st) st b in
  HistoryDetailPage.sensorData st = None
  /\ requests o = []
  /\ HistoryDetailPage.error (final o)
     = Some "Cannot load more recommendations: sensor data not available"
  /\ HistoryDetailPage.recommendations (final o) = [tomato]
  /\ HistoryDetailPage.isLoadingMore (final o) = false
  /\ uncaught o = None
  /\ env o = b.
Proof.
intros st b o. split; [reflexivity |].
exact (missing_sensor_data_fails_locally base_url (Backend.respond base_url)
         st b (or_intror eq_refl)).
Defined.


Lemma two_load_more_in_flight_witness :
  let t := {| HistoryDetailPage.rendered := history [tomato] (Some readings);
              HistoryDetailPage.live := idle_page [tomato] |} in
  let after :=
    HistoryDetailPage.steps base_url
      [HistoryDetailPage.ClickLoadMore; HistoryDetailPage.ClickLoadMore] t in
  HistoryDetailPage.LoadMoreButton_disabled (HistoryDetailPage.rendered t) = false
  /\ map fst (HistoryDetailPage.in_flight (HistoryDetailPage.live after))
     = [HistoryDetailPage.readings_request base_url (Some "SENSOR001") readings
          ["Tomato"];
        HistoryDetailPage.readings_request base_url (Some "SENSOR001") readings
          ["Tomato"]].
Proof.
intros t after. split; [reflexivity |].
destruct (two_load_more_in_flight base_url t readings
            eq_refl eq_refl eq_refl eq_refl) as [[k1 [k2 Hboth]] _].
fold after in Hboth. rewrite Hboth. reflexivity.
Defined.

End Runs.

(** * Further properties of the handlers *)

(** ** The crops page for every answer *)

Section CropsPageOutcomes.
Variable API_BASE_URL : string.
Context {B : Type}.
Variable respond : B -> Request -> FetchResult * B.

(** X1. Whatever the network answers, [checkExistingRecommendations] lets no
    exception escape and writes neither [error] nor [isGenerating]; with a
    route parameter it issues exactly its one GET and always ends with
    [isLoading] cleared, so the spinner never stays. *)
Theorem hydration_always_settles
  (id : option string) (s : CropsPage.State) (b : B) :
  let o := run CropsPage.apply respond
             (CropsPage.checkExistingRecommendations API_BASE_URL id) s b in
  uncaught o = None
  /\ CropsPage.error (final o) = CropsPage.error s
  /\ CropsPage.isGenerating (final o) = CropsPage.isGenerating s
  /\ (falsy_string id = false ->
      CropsPage.isLoading (final o) = false
      /\ requests o = [CropsPage.latest_request API_BASE_URL id]).
Proof.
intros o. subst o. unfold CropsPage.checkExistingRecommendations.
destruct (falsy_string id) eqn:Hid; cbn.
- repeat split; discriminate.
- destruct (respond b _) as [r b'] eqn:Hresp. unfold json_data.
  destruct r as [reason | response]; cbn; [repeat split |].
  destruct (ok response); cbn.
  + destruct (response_body response) as [m | m | data]; cbn;
      try (repeat split; fail).
    destruct (p_recommendations data) as [[| c l] |]; cbn; repeat split.
  + destruct (status response =? 404)%nat; cbn; repeat split.
Qed.

(** X2. Whatever the network answers, [handleFormSubmit] lets no exception
    escape, leaves [isLoading] alone, issues exactly its one POST and clears
    [isGenerating].  Afterwards [error] is the failure message of the answer
    and nothing else: an earlier message is gone after an accepted answer.
    [recommendations] is replaced by the [recommendations] property of an
    accepted answer and kept on a failure. *)
Theorem submission_outcome
  (id : option string) (formData : FarmerFormData) (s : CropsPage.State)
  (b : B) :
  falsy_string id = false ->
  let request := CropsPage.generate_request API_BASE_URL id formData in
  let r := fst (respond b request) in
  let o := run CropsPage.apply respond
             (CropsPage.handleFormSubmit API_BASE_URL id formData) s b in
  uncaught o = None
  /\ requests o = [request]
  /\ CropsPage.isLoading (final o) = CropsPage.isLoading s
  /\ CropsPage.isGenerating (final o) = false
  /\ CropsPage.error (final o) = submission_failure r
  /\ CropsPage.recommendations (final o)
     = match submission_failure r, r with
       | None, Resolved {| response_body := ObjectJson data |} =>
           p_recommendations data
       | _, _ => CropsPage.recommendations s
       end.
Proof.
intros Hid request r o. subst request r o.
unfold CropsPage.handleFormSubmit. rewrite Hid. cbn.
destruct (respond b _) as [r b'] eqn:Hresp. unfold json_data.
destruct r as [reason | [code payload]]; cbn; [repeat split |].
destruct (ok {| status := code; response_body := payload |}); cbn;
  [| repeat split].
destruct payload as [m | m | data]; cbn; repeat split.
Qed.

(** X3. What the page shows after a submission made from the form.  A
    failure shows the form again with the message as banner, and no banner at
    all when the message is empty; an accepted answer shows the grid of its
    recommendations, also when the array is empty, and the form without any
    banner when the answer has no [recommendations]. *)
Theorem submission_view
  (id : option string) (formData : FarmerFormData) (s : CropsPage.State)
  (b : B) :
  falsy_string id = false ->
  CropsPage.isLoading s = false ->
  CropsPage.recommendations s = None ->
  let r := fst (respond b (CropsPage.generate_request API_BASE_URL id formData)) in
  let o := run CropsPage.apply respond
             (CropsPage.handleFormSubmit API_BASE_URL id formData) s b in
  CropsPage.render (final o)
  = match submission_failure r, r with
    | Some EmptyString, _ => CropsPage.FarmerFormView None false
    | Some message, _ => CropsPage.FarmerFormView (Some message) false
    | None, Resolved {| response_body := ObjectJson data |} =>
        match p_recommendations data with
        | Some recs => CropsPage.CropGrid None (map crop recs)
        | None => CropsPage.FarmerFormView None false
        end
    | None, _ => CropsPage.FarmerFormView None false
    end.
Proof.
intros Hid Hloading Hrecs r o. subst r o.
unfold CropsPage.handleFormSubmit, CropsPage.render, CropsPage.banner.
rewrite Hid. cbn.
destruct (respond b _) as [r b'] eqn:Hresp. unfold json_data. cbn.
destruct r as [[[| c message] | v] | [code payload]]; cbn;
  rewrite ?Hloading, ?Hrecs; try reflexivity.
destruct (ok {| status := code; response_body := payload |}); cbn;
  rewrite ?Hloading, ?Hrecs; [| reflexivity].
destruct payload as [[| c message] | [| c message] | data]; cbn;
  rewrite ?Hloading, ?Hrecs; try reflexivity.
destruct (p_recommendations data); reflexivity.
Qed.

(** X4. An answer whose [recommendations] is the empty array is treated in
    two ways: [checkExistingRecommendations] takes it for "no recommendations
    yet" and the form is shown, [handleFormSubmit] stores the empty array and
    the page shows a grid without cards instead of the form. *)
Theorem empty_array_form_or_grid
  (id : option string) (formData : FarmerFormData) (s : CropsPage.State)
  (b b' : B) (response : Response) (data : Payload) :
  falsy_string id = false ->
  CropsPage.isLoading s = false ->
  ok response = true ->
  response_body response = ObjectJson data ->
  p_recommendations data = Some [] ->
  (respond b (CropsPage.latest_request API_BASE_URL id) = (Resolved response, b') ->
   CropsPage.render
     (final (run CropsPage.apply respond
               (CropsPage.checkExistingRecommendations API_BASE_URL id) s b))
   = CropsPage.FarmerFormView (CropsPage.banner s) (CropsPage.isGenerating s))
  /\ (respond b (CropsPage.generate_request API_BASE_URL id formData)
      = (Resolved response, b') ->
      CropsPage.render
        (final (run CropsPage.apply respond
                  (CropsPage.handleFormSubmit API_BASE_URL id formData) s b))
      = CropsPage.CropGrid None []).
Proof.
intros Hid Hloading Hok Hbody Hempty. split; intros Hresp.
- unfold CropsPage.checkExistingRecommendations. rewrite Hid. cbn.
  rewrite Hresp. cbn. rewrite Hok. unfold json_data. rewrite Hbody. cbn.
  rewrite Hempty. cbn. reflexivity.
- unfold CropsPage.handleFormSubmit. rewrite Hid. cbn.
  rewrite Hresp. cbn. rewrite Hok. unfold json_data. rewrite Hbody. cbn.
  rewrite Hempty. unfold CropsPage.render. cbn. rewrite Hloading. reflexivity.
Qed.

(** X5. Without a route parameter neither handler does anything: no request
    and the state as it was.  The page, which starts with [isLoading] set,
    therefore keeps showing the spinner. *)
Theorem missing_id_does_nothing
  (id : option string) (formData : FarmerFormData) (s : CropsPage.State)
  (b : B) :
  falsy_string id = true ->
  let check := run CropsPage.apply respond
                 (CropsPage.checkExistingRecommendations API_BASE_URL id) s b in
  let submit := run CropsPage.apply respond
                  (CropsPage.handleFormSubmit API_BASE_URL id formData) s b in
  requests check = [] /\ final check = s
  /\ requests submit = [] /\ final submit = s
  /\ CropsPage.render
       (final (run CropsPage.apply respond
                 (CropsPage.checkExistingRecommendations API_BASE_URL id)
                 CropsPage.initial b))
     = CropsPage.Spinner.
Proof.
intros Hid check submit. subst check submit.
unfold CropsPage.checkExistingRecommendations, CropsPage.handleFormSubmit.
rewrite Hid. cbn. repeat split.
Qed.
End CropsPageOutcomes.

(** ** Tabs and routes *)

Section Routes.
Import AnimatedRoutes.

Lemma segment_no_slash (id rest : string) :
  no_slash id = true ->
  (rest = EmptyString \/ exists t, rest = String "/" t) ->
  segment (id ++ rest) = id /\ after_segment (id ++ rest) = rest.
Proof.
intros Hid Hrest. induction id as [| c id IH].
- destruct Hrest as [-> | [t ->]]; split; reflexivity.
- cbn [no_slash] in Hid. apply andb_true_iff in Hid. destruct Hid as [Hc Hid].
  apply negb_true_iff in Hc. cbn [append segment after_segment]. rewrite Hc.
  destruct (IH Hid) as [Hseg Hafter]. rewrite Hseg, Hafter. split; reflexivity.
Qed.

Lemma includes_app_r (a t sub : string) :
  includes t sub = true -> includes (a ++ t) sub = true.
Proof.
intros Ht. induction a as [| c a IH]; [exact Ht |].
cbn [append includes]. rewrite IH.
destruct (strip_prefix sub (String c (a ++ t))); reflexivity.
Qed.

(** A literal that begins with a slash does not occur in a single segment. *)
Lemma includes_no_slash (s sub : string) :
  no_slash s = true -> includes s (String "/" sub) = false.
Proof.
intros Hs. induction s as [| c s IH]; [reflexivity |].
cbn [no_slash] in Hs. apply andb_true_iff in Hs. destruct Hs as [Hc Hs].
apply negb_true_iff in Hc.
cbn [includes strip_prefix]. rewrite Ascii.eqb_sym, Hc. exact (IH Hs).
Qed.

(** A literal with a slash is not the beginning of a single segment. *)
Lemma strip_prefix_slash (p s : string) :
  no_slash s = true -> no_slash p = false -> strip_prefix p s = None.
Proof.
revert s. induction p as [| a p IH]; intros s Hs Hp; [discriminate |].
destruct s as [| c s]; [reflexivity |].
cbn [no_slash] in Hs, Hp. cbn [strip_prefix].
apply andb_true_iff in Hs. destruct Hs as [Hc Hs].
destruct (Ascii.eqb_spec a c) as [-> | Hne]; [| reflexivity].
rewrite Hc in Hp. exact (IH s Hs Hp).
Qed.

Lemma eqb_app_l (s t : string) (c : ascii) :
  String.eqb (s ++ String c t) s = false.
Proof.
induction s as [| a s IH]; cbn; [reflexivity |].
rewrite Ascii.eqb_refl. exact IH.
Qed.

Lemma eqb_app_r (s t : string) (c : ascii) :
  String.eqb s (s ++ String c t) = false.
Proof.
rewrite String.eqb_sym. apply eqb_app_l.
Qed.

Lemma nonempty_segment (id : string) :
  id <> EmptyString -> exists c rest, id = String c rest.
Proof.
destruct id as [| c rest]; [congruence | eauto].
Qed.

(** The tab of the detail page of a greenhouse. *)
Lemma effect_detail (id tab : string) :
  no_slash id = true ->
  strip_prefix "crops" id = None ->
  strip_prefix "history" id = None ->
  effect {| pathname := "/greenhouse/" ++ id; activeTab := tab |}
  = {| pathname := "/greenhouse/" ++ id; activeTab := "data" |}.
Proof.
intros Hid Hcrops Hhistory. unfold effect. cbn.
cbn in Hcrops, Hhistory. rewrite Hcrops, Hhistory.
rewrite !(includes_no_slash id _ Hid). reflexivity.
Qed.

(** The tab of the crops page of a greenhouse. *)
Lemma effect_crops (id tab : string) :
  effect {| pathname := "/greenhouse/" ++ id ++ "/crops"; activeTab := tab |}
  = {| pathname := "/greenhouse/" ++ id ++ "/crops"; activeTab := "plant" |}.
Proof.
unfold effect.
assert (Hin : includes ("/greenhouse/" ++ id ++ "/crops") "/crops" = true).
{ apply includes_app_r, includes_app_r. reflexivity. }
cbn [pathname]. rewrite Hin. reflexivity.
Qed.

Lemma match_greenhouse_detail (id rest : string) :
  id <> EmptyString ->
  no_slash id = true ->
  (rest = EmptyString \/ exists t, rest = String "/" t) ->
  match_greenhouse ("/greenhouse/" ++ id ++ rest) = Some id.
Proof.
intros Hne Hid Hrest.
destruct (segment_no_slash id rest Hid Hrest) as [Hseg _].
destruct (nonempty_segment id Hne) as [c [tl Hc]].
cbn. unfold greenhouse_here. cbn. rewrite Hseg. rewrite Hc. reflexivity.
Qed.
Lemma handle_plant (id rest tab : string) :
  id <> EmptyString ->
  no_slash id = true ->
  (rest = EmptyString \/ rest = "/crops") ->
  handleTabChange "plant"
    {| pathname := "/greenhouse/" ++ id ++ rest; activeTab := tab |}
  = {| pathname := "/greenhouse/" ++ id ++ "/crops"; activeTab := "plant" |}.
Proof.
intros Hne Hid Hrest. unfold handleTabChange, isDetailPage.
assert (Hrest' : rest = EmptyString \/ exists t, rest = String "/" t)
  by (destruct Hrest as [-> | ->]; eauto).
cbn [pathname setActiveTab].
rewrite (match_greenhouse_detail id rest Hne Hid Hrest').
change (String.eqb "plant" "chat") with false.
change (String.eqb "plant" "data") with false.
change (String.eqb "plant" "plant") with true.
change (includes ("/greenhouse/" ++ id ++ rest) "/greenhouse/") with true.
cbn [andb]. cbv [navigate setActiveTab pathname activeTab].
destruct Hrest as [-> | ->].
- assert (Hne' : String.eqb ("/greenhouse/" ++ id ++ "/crops")
                   ("/greenhouse/" ++ id ++ "") = false).
  { cbn. clear. induction id as [| a id IH]; cbn; [reflexivity |].
    rewrite Ascii.eqb_refl. exact IH. }
  rewrite Hne'. apply effect_crops.
- rewrite String.eqb_refl. reflexivity.
Qed.

Lemma append_nil_r (s : string) : (s ++ "")%string = s.
Proof.
induction s as [| a s IH]; cbn; [reflexivity | rewrite IH; reflexivity].
Qed.

Lemma handle_data (id rest tab : string) :
  id <> EmptyString ->
  no_slash id = true ->
  strip_prefix "crops" id = None ->
  strip_prefix "history" id = None ->
  (rest = EmptyString \/ rest = "/crops") ->
  handleTabChange "data"
    {| pathname := "/greenhouse/" ++ id ++ rest; activeTab := tab |}
  = {| pathname := "/greenhouse/" ++ id; activeTab := "data" |}.
Proof.
intros Hne Hid Hcrops Hhistory Hrest. unfold handleTabChange, isDetailPage.
assert (Hrest' : rest = EmptyString \/ exists t, rest = String "/" t)
  by (destruct Hrest as [-> | ->]; eauto).
cbn [pathname setActiveTab].
rewrite (match_greenhouse_detail id rest Hne Hid Hrest').
change (String.eqb "data" "chat") with false.
change (String.eqb "data" "data") with true.
change (includes ("/greenhouse/" ++ id ++ rest) "/greenhouse/") with true.
cbn [andb]. cbv [navigate setActiveTab pathname activeTab].
destruct Hrest as [-> | ->].
- rewrite append_nil_r, String.eqb_refl. reflexivity.
- assert (Hne' : String.eqb ("/greenhouse/" ++ id)
                   ("/greenhouse/" ++ id ++ "/crops") = false).
  { cbn. apply eqb_app_r. }
  rewrite Hne'. apply effect_detail; assumption.
Qed.

(** X6. On the detail page of a greenhouse the plant tab leads to the crops
    page of the same greenhouse, and the data tab pressed there leads back to
    the detail page: the identifier read from the path survives the round
    trip and each page has its own tab active.  The identifier is one path
    segment that does not begin with "crops" or "history". *)
Theorem plant_and_data_round_trip (id tab : string) :
  id <> EmptyString ->
  no_slash id = true ->
  strip_prefix "crops" id = None ->
  strip_prefix "history" id = None ->
  let detail := {| pathname := "/greenhouse/" ++ id; activeTab := tab |} in
  let crops := handleTabChange "plant" detail in
  crops = {| pathname := "/greenhouse/" ++ id ++ "/crops"; activeTab := "plant" |}
  /\ handleTabChange "data" crops
     = {| pathname := "/greenhouse/" ++ id; activeTab := "data" |}
  /\ handleTabChange "plant" (handleTabChange "data" crops) = crops.
Proof.
intros Hne Hid Hcrops Hhistory detail crops.
assert (Hplant : crops = {| pathname := "/greenhouse/" ++ id ++ "/crops";
                            activeTab := "plant" |}).
{ subst crops detail.
  rewrite <- (append_nil_r id) at 1.
  apply (handle_plant id "" tab Hne Hid). left. reflexivity. }
assert (Hdata : handleTabChange "data" crops
                = {| pathname := "/greenhouse/" ++ id; activeTab := "data" |}).
{ rewrite Hplant. apply handle_data; auto. }
split; [exact Hplant |]. split; [exact Hdata |].
rewrite Hdata, Hplant.
rewrite <- (append_nil_r id) at 1.
apply (handle_plant id "" "data" Hne Hid). left. reflexivity.
Qed.
Lemma navigate_to_tab (to tab : string) (st : State) :
  activeTab st = tab ->
  effect {| pathname := to; activeTab := tab |}
  = {| pathname := to; activeTab := tab |} ->
  navigate to st = {| pathname := to; activeTab := tab |}.
Proof.
intros Htab Heffect. unfold navigate.
destruct (String.eqb_spec to (pathname st)) as [-> | _].
- destruct st as [path tab']. cbn in *. rewrite Htab. reflexivity.
- rewrite Htab. exact Heffect.
Qed.

(** X7. The home, chat and history tabs always lead to their route and end
    up active, from every page.  The plant and data tabs lead somewhere only
    on a greenhouse page: elsewhere the route stays and only the highlighted
    tab changes. *)
Theorem tabs_and_their_routes :
  (forall st : State,
      handleTabChange "home" st = {| pathname := "/"; activeTab := "home" |}
      /\ handleTabChange "chat" st
         = {| pathname := "/chat"; activeTab := "chat" |}
      /\ handleTabChange "history" st
         = {| pathname := "/history"; activeTab := "history" |})
  /\ (forall (st : State) (tab : string),
        tab = "plant" \/ tab = "data" ->
        isDetailPage st = false ->
        handleTabChange tab st
        = {| pathname := pathname st; activeTab := tab |}).
Proof.
split.
- intros st. unfold handleTabChange. repeat split.
  + change (String.eqb "home" "chat") with false.
    change (String.eqb "home" "data") with false.
    change (String.eqb "home" "plant") with false.
    change (String.eqb "home" "history") with false.
    change (String.eqb "home" "home") with true.
    cbn [andb]. apply navigate_to_tab; reflexivity.
  + change (String.eqb "chat" "chat") with true.
    apply navigate_to_tab; reflexivity.
  + change (String.eqb "history" "chat") with false.
    change (String.eqb "history" "data") with false.
    change (String.eqb "history" "plant") with false.
    change (String.eqb "history" "history") with true.
    cbn [andb]. apply navigate_to_tab; reflexivity.
- intros st tab Htab Hdetail. unfold handleTabChange. rewrite Hdetail.
  destruct Htab as [-> | ->]; reflexivity.
Qed.

(** X8. The effect tests "/crops" before "/history" and "/greenhouse/", so
    every crop page of the history gets the plant tab, not the history tab,
    and so does the detail page of a greenhouse whose identifier begins with
    "crops", instead of the data tab. *)
Theorem crops_is_tested_first (tab : string) :
  (forall sessionId cropIndex : string,
      activeTab
        (effect {| pathname := "/history/" ++ sessionId ++ "/crops/" ++ cropIndex;
                   activeTab := tab |}) = "plant")
  /\ (forall rest : string,
        activeTab
          (effect {| pathname := "/greenhouse/crops" ++ rest; activeTab := tab |})
        = "plant").
Proof.
split.
- intros sessionId cropIndex. unfold effect. cbn [pathname].
  assert (Hin : includes ("/history/" ++ sessionId ++ "/crops/" ++ cropIndex)
                  "/crops" = true).
  { apply includes_app_r, includes_app_r. reflexivity. }
  rewrite Hin. reflexivity.
- intros rest. reflexivity.
Qed.

Lemma strip_prefix_app (p s : string) : strip_prefix p (p ++ s) = Some s.
Proof.
induction p as [| a p IH]; [reflexivity |].
cbn [append strip_prefix]. rewrite Ascii.eqb_refl. exact IH.
Qed.

Lemma crop_detail_here_link (root id : string) (d : ascii) (rest : string) :
  id <> EmptyString ->
  no_slash id = true ->
  is_digit d = true ->
  crop_detail_here root (root ++ id ++ "/crops/" ++ String d rest) = true.
Proof.
intros Hne Hid Hdigit. unfold crop_detail_here.
rewrite strip_prefix_app.
assert (Hrest : ("/crops/" ++ String d rest)%string = EmptyString
                \/ exists t, ("/crops/" ++ String d rest)%string = String "/" t)
  by (right; eexists; reflexivity).
destruct (segment_no_slash id _ Hid Hrest) as [Hseg Hafter].
rewrite Hseg, Hafter, strip_prefix_app, Hdigit.
destruct (nonempty_segment id Hne) as [c [tl ->]]. reflexivity.
Qed.

Lemma crop_detail_match_here (root s : string) :
  crop_detail_here root s = true -> crop_detail_match root s = true.
Proof.
intros Hhere. destruct s; cbn [crop_detail_match]; rewrite Hhere; reflexivity.
Qed.

Lemma strip_prefix_Some (p s rest : string) :
  strip_prefix p s = Some rest -> s = (p ++ rest)%string.
Proof.
revert s. induction p as [| a p IH]; intros s H; cbn [strip_prefix] in H.
- injection H as ->. reflexivity.
- destruct s as [| c s]; [discriminate |].
  destruct (Ascii.eqb_spec a c) as [-> | _]; [| discriminate].
  cbn [append]. rewrite (IH s H). reflexivity.
Qed.

Lemma segment_split (s : string) :
  s = (segment s ++ after_segment s)%string.
Proof.
induction s as [| c s IH]; [reflexivity |]. cbn [segment after_segment].
destruct (Ascii.eqb c "/"); [reflexivity |].
cbn [append]. rewrite <- IH. reflexivity.
Qed.

Lemma includes_cons (c : ascii) (s sub : string) :
  strip_prefix sub (String c s) = None ->
  includes (String c s) sub = includes s sub.
Proof.
intros H. cbn [includes]. rewrite H. reflexivity.
Qed.

(** A match of the crop page expression needs "/crops/" in the path. *)
Lemma crop_detail_match_includes (root s : string) :
  crop_detail_match root s = true -> includes s "/crops/" = true.
Proof.
induction s as [| c s IH]; cbn [crop_detail_match]; intros H.
- rewrite orb_false_r in H. unfold crop_detail_here in H.
  destruct (strip_prefix root "") as [rest |] eqn:Hroot; [| discriminate].
  apply strip_prefix_Some in Hroot.
  destruct root; [| discriminate]. cbn in Hroot. subst rest. discriminate.
- apply orb_true_iff in H. destruct H as [Hhere | Hlater].
  + unfold crop_detail_here in Hhere.
    destruct (strip_prefix root (String c s)) as [rest |] eqn:Hroot;
      [| discriminate].
    destruct (segment rest) eqn:Hseg; [discriminate |].
    destruct (strip_prefix "/crops/" (after_segment rest)) as [tail |] eqn:Hcrops;
      [| discriminate].
    apply strip_prefix_Some in Hroot, Hcrops.
    rewrite Hroot, (segment_split rest), Hcrops.
    apply includes_app_r, includes_app_r. reflexivity.
  + apply (includes_app_r (String c "")). exact (IH Hlater).
Qed.

Lemma decimal_digit (index : nat) :
  exists d rest,
    CropsPageLinks.decimal index = String d rest /\ is_digit d = true.
Proof.
unfold CropsPageLinks.decimal.
destruct (Nat.to_uint index); cbn; eexists; eexists; split; reflexivity.
Qed.

(** X9. Every card of the grid leads to a path on which the navigation bar
    is hidden, card [i] to the page of crop [i]; the back button leads to
    the detail page of the greenhouse, where the bar is shown.  The
    identifier of the greenhouse is one path segment. *)
Theorem card_links_hide_the_bar
  (id tab : string) (recs : list CropRecommendation) :
  id <> EmptyString ->
  no_slash id = true ->
  length (CropsPageLinks.card_links (Some id) recs) = length recs
  /\ (forall i link,
        nth_error (CropsPageLinks.card_links (Some id) recs) i = Some link ->
        link = CropsPageLinks.handleCropClick (Some id) i
        /\ shouldHideNavbar {| pathname := link; activeTab := tab |} = true)
  /\ shouldHideNavbar
       {| pathname := CropsPageLinks.handleBack (Some id); activeTab := tab |}
     = false.
Proof.
intros Hne Hid. unfold CropsPageLinks.card_links.
split; [rewrite length_map, length_seq; reflexivity |]. split.
- intros i link Hnth. rewrite nth_error_map in Hnth.
  destruct (nth_error (List.seq 0 (length recs)) i) as [j |] eqn:Hj;
    [| discriminate].
  assert (Hij : j = i).
  { assert (Hlt : i < length (List.seq 0 (length recs)))
      by (apply nth_error_Some; congruence).
    rewrite length_seq in Hlt.
    rewrite (nth_error_nth' _ 0) in Hj by (rewrite length_seq; exact Hlt).
    rewrite seq_nth in Hj by exact Hlt. injection Hj as <-. reflexivity. }
  subst j.
  change (Some (CropsPageLinks.handleCropClick (Some id) i) = Some link) in Hnth.
  injection Hnth as <-. split; [reflexivity |].
  destruct (decimal_digit i) as [d [rest [Hdec Hdigit]]].
  assert (Hgo : crop_detail_match "/greenhouse/"
                  (CropsPageLinks.handleCropClick (Some id) i) = true).
  { unfold CropsPageLinks.handleCropClick, template. rewrite Hdec.
    apply crop_detail_match_here, crop_detail_here_link; assumption. }
  unfold shouldHideNavbar. cbv [pathname]. rewrite Hgo. reflexivity.
- assert (Hnone : includes (CropsPageLinks.handleBack (Some id)) "/crops/" = false).
  { unfold CropsPageLinks.handleBack, template.
    change ("/greenhouse/" ++ id)%string
      with (String "/" (String "g" (String "r" (String "e" (String "e"
             (String "n" (String "h" (String "o" (String "u" (String "s"
             (String "e" (String "/" id)))))))))))).
    rewrite !includes_cons by reflexivity.
    rewrite includes_cons
      by (change (strip_prefix "/crops/" (String "/" id))
            with (strip_prefix "crops/" id);
          apply strip_prefix_slash; [exact Hid | reflexivity]).
    apply includes_no_slash. exact Hid. }
  unfold shouldHideNavbar. cbv [pathname].
  destruct (crop_detail_match "/greenhouse/" _) eqn:H1;
    [apply crop_detail_match_includes in H1; congruence |].
  destruct (crop_detail_match "/history/" _) eqn:H2;
    [apply crop_detail_match_includes in H2; congruence |].
  reflexivity.
Qed.

(** X10. The current revision of the component extends the earlier one: on
    every path but "/chat" the effect chooses the same tab, for the plant and
    history tabs the handler does exactly what it did, and for every other
    tab the earlier handler never left the page. *)
Theorem revision_extends_earlier_one (st : State) :
  (pathname st <> "/chat" -> effect st = effect_v1 st)
  /\ handleTabChange "plant" st = handleTabChange_v1 "plant" st
  /\ handleTabChange "history" st = handleTabChange_v1 "history" st
  /\ (forall tab,
        tab <> "plant" -> tab <> "history" ->
        handleTabChange_v1 tab st
        = {| pathname := pathname st; activeTab := tab |}).
Proof.
split; [| split; [| split]].
- intros Hchat. unfold effect, effect_v1.
  destruct (String.eqb_spec (pathname st) "/chat") as [H | _]; [contradiction |].
  reflexivity.
- unfold handleTabChange, handleTabChange_v1. cbn [String.eqb Ascii.eqb Bool.eqb andb].
  destruct (isDetailPage st); [| reflexivity].
  destruct (match_greenhouse (pathname st)) as [id |]; reflexivity.
- reflexivity.
- intros tab Hplant Hhistory. unfold handleTabChange_v1.
  destruct (String.eqb_spec tab "plant") as [H | _]; [contradiction |].
  destruct (String.eqb_spec tab "history") as [H | _]; [contradiction |].
  reflexivity.
Qed.
End Routes.

(** ** Load More for every answer *)

Section LoadMoreOutcomes.
Variable API_BASE_URL : string.
Context {B : Type}.
Variable respond : B -> Request -> FetchResult * B.

Import HistoryDetailPage.

(** The catch and finally clauses of [handleLoadMore] around any program:
    nothing escapes and the flag ends cleared. *)
Lemma caught_and_cleared (p : Prog Setter) :
  forall (s : State) (b : B),
    let o := run apply respond
               (finally
                  (try_catch p
                     (fun err =>
                        (setError
                           (Some (message_or err
                                    "Failed to load more recommendations")) ;;
                         Done)%prog))
                  (setIsLoadingMore false ;; Done)%prog) s b in
    uncaught o = None /\ isLoadingMore (final o) = false.
Proof.
induction p as [| err | c k IH | label err k IH | req k IH]; intros s b;
  cbn [try_catch finally run].
- split; reflexivity.
- split; reflexivity.
- apply IH.
- cbn [uncaught final]. apply IH.
- destruct (respond b req) as [r b']. cbn [uncaught final]. apply IH.
Qed.

(** X11. Whatever the function awaited at line 310 does and whatever the
    network answers, [handleLoadMore] lets no exception escape and, when its
    guard passes, ends with [isLoadingMore] cleared: the catch and finally
    clauses of lines 311-315 cover every path.  This holds in particular of
    the handler with [fetchSessionDetails] as modelled. *)
Theorem load_more_always_settles
  (refetch : State -> Prog Setter) (st : State) (b : B) :
  let o := run apply respond
             (handleLoadMore_with API_BASE_URL refetch st) st b in
  let o' := run apply respond (handleLoadMore API_BASE_URL st) st b in
  handleLoadMore API_BASE_URL st
  = handleLoadMore_with API_BASE_URL (fetchSessionDetails API_BASE_URL) st
  /\ uncaught o = None
  /\ (can_load_more st = true -> isLoadingMore (final o) = false)
  /\ uncaught o' = None
  /\ (can_load_more st = true -> isLoadingMore (final o') = false).
Proof.
assert (Hany : forall refetch' : State -> Prog Setter,
  let o := run apply respond
             (handleLoadMore_with API_BASE_URL refetch' st) st b in
  uncaught o = None
  /\ (can_load_more st = true -> isLoadingMore (final o) = false)).
{ intros refetch' o. subst o. unfold handleLoadMore_with, can_load_more.
  destruct (falsy_string (sensorId st) || falsy_object (sensorData st)).
  - cbn. split; [reflexivity | discriminate].
  - match goal with
    | |- context [run apply respond (finally (try_catch ?p _) _) st b] =>
        destruct (caught_and_cleared p st b) as [Hcaught Hcleared]
    end.
    split; [exact Hcaught | intros _; exact Hcleared]. }
intros o o'.
assert (Hsame : handleLoadMore API_BASE_URL st
                = handleLoadMore_with API_BASE_URL
                    (fetchSessionDetails API_BASE_URL) st) by reflexivity.
split; [exact Hsame |].
destruct (Hany refetch) as [H1 H2].
destruct (Hany (fetchSessionDetails API_BASE_URL)) as [H3 H4].
subst o o'. rewrite Hsame.
repeat split; assumption.
Qed.

(** X12. In [fetchSessionDetails] the readings of the sensor are fetched on
    a best effort: whatever that request is answered, no exception escapes,
    [error] is not written and the session just stored stays.  The readings
    are replaced only by those of an OK answer with a JSON object; a
    rejected request and a body that cannot be read are logged to the
    console, a status that is not OK leaves no trace at all. *)
Theorem sensor_fetch_is_best_effort
  (st s : State) (b b1 b2 : B) (response : Response) (data : Payload)
  (r : FetchResult) :
  respond b (session_request API_BASE_URL (sessionId st))
  = (Resolved response, b1) ->
  ok response = true ->
  response_body response = ObjectJson data ->
  falsy_string (p_sensor_id data) = false ->
  respond b1 (sensor_request API_BASE_URL (p_sensor_id data)) = (r, b2) ->
  let o := run apply respond (fetchSessionDetails API_BASE_URL st) s b in
  uncaught o = None
  /\ error (final o) = error s
  /\ recommendations (final o)
     = match p_recommendations data with Some l => l | None => [] end
  /\ sensorData (final o)
     = match r with
       | Resolved {| status := code; response_body := ObjectJson info |} =>
           if ok {| status := code; response_body := ObjectJson info |}
           then p_current_sensors info
           else sensorData s
       | _ => sensorData s
       end
  /\ console o
     = match r with
       | Rejected reason => [("Failed to fetch sensor data:", reason)]
       | Resolved sensorResponse =>
           if ok sensorResponse then
             match response_body sensorResponse with
             | Unparseable message | NullJson message =>
                 [("Failed to fetch sensor data:", ErrorObject message)]
             | ObjectJson _ => []
             end
           else []
       end.
Proof.
intros Hsession Hok Hbody Hsensor Hresp o. subst o.
unfold fetchSessionDetails, fetchSessionDetails_existing, fetch.
cbn. rewrite Hsession. cbn. rewrite Hok. cbn.
unfold json_data. rewrite Hbody. cbn. rewrite Hsensor. cbn. rewrite Hresp.
destruct r as [reason | [code payload]]; cbn; [repeat split |].
destruct payload as [m | m | info];
  destruct (ok {| status := code; response_body := _ |});
  cbn; repeat split.
Qed.

(** X13. When the readings fetched again after a successful "Load More" are
    an OK answer without [current_sensors], the page loses its readings: the
    Load More button is disabled and a further call of the handler fails
    locally, without a request. *)
Theorem lost_readings_stop_load_more
  (st : State) (sensor : SensorData) (b b1 b2 b3 : B)
  (posted fetched sensed : Response) (data info : Payload) :
  falsy_string (sensorId st) = false ->
  sensorData st = Some sensor ->
  respond b
    (readings_request API_BASE_URL (sensorId st) sensor
       (map crop (recommendations st))) = (Resolved posted, b1) ->
  ok posted = true ->
  respond b1 (session_request API_BASE_URL (sessionId st))
  = (Resolved fetched, b2) ->
  ok fetched = true ->
  response_body fetched = ObjectJson data ->
  falsy_string (p_sensor_id data) = false ->
  respond b2 (sensor_request API_BASE_URL (p_sensor_id data))
  = (Resolved sensed, b3) ->
  ok sensed = true ->
  response_body sensed = ObjectJson info ->
  p_current_sensors info = None ->
  let o := run apply respond (handleLoadMore API_BASE_URL st) st b in
  let again := run apply respond
                 (handleLoadMore API_BASE_URL (final o)) (final o) (env o) in
  error (final o) = None
  /\ sensorData (final o) = None
  /\ LoadMoreButton_disabled (final o) = true
  /\ requests again = []
  /\ error (final again)
     = Some "Cannot load more recommendations: sensor data not available".
Proof.
intros Hid Hsd Hpost Hposted Hfetch Hfetched Hdata Hsensor Hsense Hsensed
  Hinfo Hnone o again. assert (Hfinal :
  final o
  = apply (setIsLoadingMore false)
      (apply (setSensorData None)
         (apply (setRecommendations
                   (match p_recommendations data with Some l => l | None => [] end))
            (apply (setError None) (apply (setIsLoadingMore true) st))))).
{ subst o. unfold handleLoadMore.
  rewrite Hid, Hsd. cbn. rewrite Hpost. cbn. rewrite Hposted. cbn.
  rewrite Hfetch. cbn. rewrite Hfetched. cbn.
  unfold json_data. rewrite Hdata. cbn. rewrite Hsensor. cbn.
  rewrite Hsense. cbn. rewrite Hsensed. cbn. rewrite Hinfo. cbn. rewrite Hnone.
  reflexivity. }
subst again. rewrite Hfinal. unfold handleLoadMore, LoadMoreButton_disabled.
cbn. rewrite orb_true_r. cbn. repeat split.
Qed.

(** X14. The button looks at the readings only, the handler also at the
    sensor of the session: on a page with readings but without a sensor the
    button is enabled, and a click starts no request and shows the message
    "sensor data not available". *)
Theorem click_without_sensor_id (pg : Page) (sensor : SensorData) :
  isLoadingMore (ui pg) = false ->
  sensorData (ui pg) = Some sensor ->
  falsy_string (sensorId (ui pg)) = true ->
  LoadMoreButton_disabled (ui pg) = false
  /\ in_flight (click_LoadMore API_BASE_URL pg) = in_flight pg
  /\ ui (click_LoadMore API_BASE_URL pg)
     = apply
         (setError
            (Some "Cannot load more recommendations: sensor data not available"))
         (ui pg).
Proof.
intros Hflag Hsd Hid.
unfold click_LoadMore, LoadMoreButton_disabled, call_handleLoadMore, launch,
  handleLoadMore.
rewrite Hflag, Hsd, Hid. cbn. repeat split.
Qed.
End LoadMoreOutcomes.

(** ** Load More, batch after batch *)

Section Accumulation.
Variable API_BASE_URL : string.

Import HistoryDetailPage.

Local Arguments falsy_string : simpl never.

Lemma eqb_same_prefix (base x y : string) :
  String.eqb (base ++ x) (base ++ y) = String.eqb x y.
Proof.
induction base as [| a base IH]; [reflexivity |].
cbn [append String.eqb]. rewrite Ascii.eqb_refl. exact IH.
Qed.

(** One "Load More" of an attached page: the batch is stored and shown, the
    page stays attached, and the generator was given the names shown. *)
Lemma load_more_once_step (st : State) (b : Backend.State)
  (batch : list CropRecommendation) (later : list (list CropRecommendation)) :
  attached st b ->
  Backend.upcoming b = batch :: later ->
  let w := load_more_once API_BASE_URL (st, b) in
  attached (fst w) (snd w)
  /\ recommendations (fst w) = Backend.stored b ++ batch
  /\ Backend.stored (snd w) = Backend.stored b ++ batch
  /\ Backend.upcoming (snd w) = later
  /\ Backend.prompts (snd w)
     = Backend.prompts b
       ++ [Endpoint.crops_list (Some (map crop (recommendations st)))].
Proof.
intros [Hsession [Hsensor [Hname [sensor [Hcurrent [Hsd Hcomplete]]]]]] Hup w.
subst w. unfold load_more_once, attached. cbn [fst snd].
unfold handleLoadMore.
rewrite Hsd, Hsensor, (nonempty_truthy _ Hname). cbn.
rewrite String.eqb_refl.
unfold Backend.post_readings.
rewrite valid_complete, Hcomplete, Hup. cbn.
rewrite Hsession. cbn. rewrite String.eqb_refl. cbn.
rewrite (nonempty_truthy _ Hname). cbn.
rewrite eqb_same_prefix. cbn. rewrite String.eqb_refl. cbn.
rewrite Hcurrent. cbn.
repeat split; try assumption.
exists sensor. repeat split; assumption.
Qed.

(** X15. Consecutive "Load More" calls accumulate.  On a page attached to
    its session that shows what is stored, one call per batch leaves the page
    showing the initial collection followed by all the batches in order,
    which is also what is stored; and the exclusion text the generator was
    given for each call lists every crop shown at that moment, so no crop
    shown is ever left out of a later exclusion list. *)
Theorem load_more_accumulates (batches : list (list CropRecommendation)) :
  forall (st : State) (b : Backend.State)
         (later : list (list CropRecommendation)),
    attached st b ->
    recommendations st = Backend.stored b ->
    Backend.upcoming b = batches ++ later ->
    let w := fold_left (fun w _ => load_more_once API_BASE_URL w)
               batches (st, b) in
    recommendations (fst w) = recommendations st ++ concat batches
    /\ Backend.stored (snd w) = recommendations (fst w)
    /\ Backend.upcoming (snd w) = later
    /\ Backend.prompts (snd w)
       = Backend.prompts b ++ exclusion_texts (recommendations st) batches
    /\ attached (fst w) (snd w).
Proof.
induction batches as [| batch batches IH]; intros st b later Hatt Hsync Hup w.
- subst w. cbn in *. rewrite !app_nil_r.
  repeat (split; [solve [auto | congruence] |]). exact Hatt.
- subst w. cbn [fold_left].
  destruct (load_more_once_step st b batch (batches ++ later) Hatt Hup)
    as [Hatt' [Hrecs [Hstored [Hup' Hprompts]]]].
  destruct (load_more_once API_BASE_URL (st, b)) as [st' b'] eqn:Hw.
  cbn [fst snd] in *.
  assert (Hsync' : recommendations st' = Backend.stored b') by congruence.
  destruct (IH st' b' later Hatt' Hsync' Hup')
    as [H1 [H2 [H3 [H4 H5]]]].
  cbn [concat exclusion_texts].
  split; [rewrite H1, Hrecs, <- Hsync, <- app_assoc; reflexivity |].
  split; [exact H2 |].
  split; [exact H3 |].
  split; [| exact H5].
  rewrite H4, Hprompts, Hrecs, <- Hsync, <- app_assoc. reflexivity.
Qed.
End Accumulation.

(** ** The exclusion text of the prompt *)

Section ExclusionText.

Lemma split_lines_one_line (s : string) :
  one_line s = true -> split_lines s = [s].
Proof.
induction s as [| c s IH]; [reflexivity |]. cbn [one_line split_lines].
intros H. apply andb_true_iff in H. destruct H as [Hc Hs].
apply negb_true_iff in Hc. rewrite Hc, (IH Hs). reflexivity.
Qed.

Lemma split_lines_app (s t : string) :
  one_line s = true ->
  split_lines (s ++ String "010" t) = s :: split_lines t.
Proof.
induction s as [| c s IH]; [reflexivity |]. cbn [one_line split_lines append].
intros H. apply andb_true_iff in H. destruct H as [Hc Hs].
apply negb_true_iff in Hc. rewrite Hc, (IH Hs). reflexivity.
Qed.

Lemma listed_crops_cons (name text : string) :
  one_line name = true ->
  listed_crops (("- " ++ name) ++ String "010" text) = name :: listed_crops text.
Proof.
intros Hname. unfold listed_crops.
rewrite split_lines_app by exact Hname. reflexivity.
Qed.

Lemma listed_crops_lines (name : string) (names : list string) :
  forallb one_line (name :: names) = true ->
  listed_crops
    (String.concat Endpoint.newline
       (map (fun crop => ("- " ++ crop)%string) (name :: names)))
  = name :: names.
Proof.
revert name. induction names as [| next names IH]; intros name Hlines.
- cbn in Hlines. rewrite andb_true_r in Hlines.
  unfold listed_crops. cbn [map String.concat].
  rewrite split_lines_one_line by exact Hlines. reflexivity.
- cbn [forallb] in Hlines. apply andb_true_iff in Hlines.
  destruct Hlines as [Hname Hrest].
  change (String.concat Endpoint.newline
            (map (fun crop => ("- " ++ crop)%string) (name :: next :: names)))
    with (("- " ++ name)
          ++ String "010"
               (String.concat Endpoint.newline
                  (map (fun crop => ("- " ++ crop)%string) (next :: names))))%string.
  rewrite (listed_crops_cons name _ Hname), (IH next Hrest). reflexivity.
Qed.

(** X16. The exclusion text can be read back: for a list of crop names that
    is not empty and whose names hold no line break, the lines of
    [crops_list], each without its leading dash, are exactly the names in
    order.  So two such lists with the same text are the same list. *)
Theorem crops_list_reads_back (names : list string) :
  names <> [] ->
  forallb one_line names = true ->
  listed_crops (Endpoint.crops_list (Some names)) = names
  /\ length (split_lines (Endpoint.crops_list (Some names))) = length names
  /\ (forall others : list string,
        others <> [] ->
        forallb one_line others = true ->
        Endpoint.crops_list (Some others) = Endpoint.crops_list (Some names) ->
        others = names).
Proof.
assert (Hback : forall l, l <> [] -> forallb one_line l = true ->
                          listed_crops (Endpoint.crops_list (Some l)) = l).
{ intros [| name l] Hne Hlines; [congruence |].
  exact (listed_crops_lines name l Hlines). }
intros Hne Hlines. split; [exact (Hback names Hne Hlines) |]. split.
- rewrite <- (Hback names Hne Hlines) at 2.
  unfold listed_crops. rewrite length_map. reflexivity.
- intros others Hne' Hlines' Hsame.
  rewrite <- (Hback others Hne' Hlines'), Hsame. exact (Hback names Hne Hlines).
Qed.
End ExclusionText.

(** * The further properties on concrete runs *)

Module MoreRuns.
Import Sample.

Lemma submission_outcome_witness :
  let s := {| CropsPage.recommendations := None; CropsPage.isLoading := false;
              CropsPage.isGenerating := false;
              CropsPage.error := Some "Failed to generate recommendations" |} in
  let script := [answer 200 (session_payload [tomato; okra] None)] in
  let o := run CropsPage.apply scripted
             (CropsPage.handleFormSubmit base_url (Some "SENSOR001") farm)
             s script in
  uncaught o = None
  /\ length (requests o) = 1
  /\ CropsPage.isGenerating (final o) = false
  /\ CropsPage.error (final o) = None
  /\ CropsPage.recommendations (final o) = Some [tomato; okra].
Proof.
intros s script o.
destruct (submission_outcome base_url scripted (Some "SENSOR001") farm s script
            eq_refl) as [H1 [H2 [_ [H4 [H5 H6]]]]].
fold o in H1, H2, H4, H5, H6.
split; [exact H1 |]. split; [rewrite H2; reflexivity |].
split; [exact H4 |]. split; [exact H5 | exact H6].
Defined.

Lemma submission_view_witness :
  let s := {| CropsPage.recommendations := None; CropsPage.isLoading := false;
              CropsPage.isGenerating := false; CropsPage.error := None |} in
  CropsPage.render
    (final (run CropsPage.apply scripted
              (CropsPage.handleFormSubmit base_url (Some "SENSOR001") farm)
              s [Rejected (ErrorObject "")]))
  = CropsPage.FarmerFormView None false
  /\ CropsPage.render
       (final (run CropsPage.apply scripted
                 (CropsPage.handleFormSubmit base_url (Some "SENSOR001") farm)
                 s [answer 500 (Unparseable "")]))
     = CropsPage.FarmerFormView (Some "Failed to generate recommendations") false.
Proof.
intros s. split.
- exact (submission_view base_url scripted (Some "SENSOR001") farm s
           [Rejected (ErrorObject "")] eq_refl eq_refl eq_refl).
- exact (submission_view base_url scripted (Some "SENSOR001") farm s
           [answer 500 (Unparseable "")] eq_refl eq_refl eq_refl).
Defined.

Lemma empty_array_form_or_grid_witness :
  let s := {| CropsPage.recommendations := None; CropsPage.isLoading := false;
              CropsPage.isGenerating := false; CropsPage.error := None |} in
  let script := [answer 200 (session_payload [] None)] in
  CropsPage.render
    (final (run CropsPage.apply scripted
              (CropsPage.checkExistingRecommendations base_url (Some "SENSOR001"))
              s script))
  = CropsPage.FarmerFormView None false
  /\ CropsPage.render
       (final (run CropsPage.apply scripted
                 (CropsPage.handleFormSubmit base_url (Some "SENSOR001") farm)
                 s script))
     = CropsPage.CropGrid None [].
Proof.
intros s script.
destruct (empty_array_form_or_grid base_url scripted (Some "SENSOR001") farm s
            script []
            {| status := 200; response_body := session_payload [] None |}
            {| p_recommendations := Some []; p_sensor_id := None;
               p_current_sensors := None; p_top_3_crops := None;
               p_total_crops_generated := None |}
            eq_refl eq_refl eq_refl eq_refl eq_refl) as [Hcheck Hsubmit].
split; [exact (Hcheck eq_refl) | exact (Hsubmit eq_refl)].
Defined.

Lemma missing_id_does_nothing_witness :
  let check := run CropsPage.apply scripted
                 (CropsPage.checkExistingRecommendations base_url None)
                 CropsPage.initial [answer 200 (session_payload [tomato] None)] in
  requests check = []
  /\ final check = CropsPage.initial
  /\ CropsPage.render (final check) = CropsPage.Spinner.
Proof.
intros check.
destruct (missing_id_does_nothing base_url scripted None farm CropsPage.initial
            [answer 200 (session_payload [tomato] None)] eq_refl)
  as [H1 [H2 [_ [_ H5]]]].
split; [exact H1 |]. split; [exact H2 | exact H5].
Defined.

Lemma plant_and_data_round_trip_witness :
  let id := "690775fbd4b2e905b8da38cb" in
  let detail := {| AnimatedRoutes.pathname := "/greenhouse/690775fbd4b2e905b8da38cb";
                   AnimatedRoutes.activeTab := "data" |} in
  let crops := AnimatedRoutes.handleTabChange "plant" detail in
  no_slash id = true
  /\ crops = {| AnimatedRoutes.pathname := "/greenhouse/690775fbd4b2e905b8da38cb/crops";
                AnimatedRoutes.activeTab := "plant" |}
  /\ AnimatedRoutes.handleTabChange "data" crops = detail.
Proof.
intros id detail crops.
assert (Hne : id <> "") by discriminate.
destruct (plant_and_data_round_trip id "data" Hne eq_refl eq_refl eq_refl)
  as [Hplant [Hdata _]].
split; [reflexivity |]. split; [exact Hplant | exact Hdata].
Defined.

Lemma card_links_hide_the_bar_witness :
  let links := CropsPageLinks.card_links (Some "SENSOR001") [tomato; okra] in
  links = ["/greenhouse/SENSOR001/crops/0"; "/greenhouse/SENSOR001/crops/1"]
  /\ AnimatedRoutes.shouldHideNavbar
       {| AnimatedRoutes.pathname := "/greenhouse/SENSOR001/crops/1";
          AnimatedRoutes.activeTab := "plant" |} = true
  /\ AnimatedRoutes.shouldHideNavbar
       {| AnimatedRoutes.pathname := "/greenhouse/SENSOR001";
          AnimatedRoutes.activeTab := "plant" |} = false.
Proof.
intros links.
assert (Hne : "SENSOR001" <> "") by discriminate.
destruct (card_links_hide_the_bar "SENSOR001" "plant" [tomato; okra] Hne eq_refl)
  as [_ [Hlinks Hback]].
split; [reflexivity |].
split; [| exact Hback].
destruct (Hlinks 1 "/greenhouse/SENSOR001/crops/1" eq_refl) as [_ Hhide].
exact Hhide.
Defined.

Lemma sensor_fetch_is_best_effort_witness :
  let st := history [tomato] (Some readings) in
  let script :=
    [answer 200 (session_payload [tomato; okra] (Some "SENSOR001"));
     Rejected (ErrorObject "Failed to fetch")] in
  let o := run HistoryDetailPage.apply scripted
             (HistoryDetailPage.fetchSessionDetails base_url st) st script in
  uncaught o = None
  /\ HistoryDetailPage.error (final o) = None
  /\ HistoryDetailPage.recommendations (final o) = [tomato; okra]
  /\ HistoryDetailPage.sensorData (final o) = Some readings
  /\ console o
     = [("Failed to fetch sensor data:", ErrorObject "Failed to fetch")].
Proof.
intros st script o.
exact (sensor_fetch_is_best_effort base_url scripted st st script
         [Rejected (ErrorObject "Failed to fetch")] []
         {| status := 200;
            response_body := session_payload [tomato; okra] (Some "SENSOR001") |}
         {| p_recommendations := Some [tomato; okra];
            p_sensor_id := Some "SENSOR001";
            p_current_sensors := None; p_top_3_crops := None;
            p_total_crops_generated := None |}
         (Rejected (ErrorObject "Failed to fetch"))
         eq_refl eq_refl eq_refl eq_refl eq_refl).
Defined.

Lemma lost_readings_stop_load_more_witness :
  let st := history [tomato] (Some readings) in
  let script :=
    [answer 200 (ObjectJson Backend.empty_payload);
     answer 200 (session_payload [tomato; okra] (Some "SENSOR001"));
     answer 200 (sensor_payload None)] in
  let o := run HistoryDetailPage.apply scripted
             (HistoryDetailPage.handleLoadMore base_url st) st script in
  let again := run HistoryDetailPage.apply scripted
                 (HistoryDetailPage.handleLoadMore base_url (final o))
                 (final o) (env o) in
  HistoryDetailPage.error (final o) = None
  /\ HistoryDetailPage.sensorData (final o) = None
  /\ HistoryDetailPage.LoadMoreButton_disabled (final o) = true
  /\ requests again = []
  /\ HistoryDetailPage.error (final again)
     = Some "Cannot load more recommendations: sensor data not available".
Proof.
intros st script o again.
exact (lost_readings_stop_load_more base_url scripted st readings
         script (tl script) (tl (tl script)) []
         {| status := 200; response_body := ObjectJson Backend.empty_payload |}
         {| status := 200;
            response_body := session_payload [tomato; okra] (Some "SENSOR001") |}
         {| status := 200; response_body := sensor_payload None |}
         {| p_recommendations := Some [tomato; okra];
            p_sensor_id := Some "SENSOR001";
            p_current_sensors := None; p_top_3_crops := None;
            p_total_crops_generated := None |}
         {| p_recommendations := None; p_sensor_id := None;
            p_current_sensors := None; p_top_3_crops := None;
            p_total_crops_generated := None |}
         eq_refl eq_refl eq_refl eq_refl eq_refl eq_refl eq_refl eq_refl
         eq_refl eq_refl eq_refl eq_refl).
Defined.

Lemma click_without_sensor_id_witness :
  let pg :=
    {| HistoryDetailPage.ui :=
         {| HistoryDetailPage.sessionId := Some "session-1";
            HistoryDetailPage.sensorId := None;
            HistoryDetailPage.recommendations := [tomato];
            HistoryDetailPage.sensorData := Some readings;
            HistoryDetailPage.error := None;
            HistoryDetailPage.isLoadingMore := false |};
       HistoryDetailPage.in_flight := [] |} in
  HistoryDetailPage.LoadMoreButton_disabled (HistoryDetailPage.ui pg) = false
  /\ HistoryDetailPage.in_flight (HistoryDetailPage.click_LoadMore base_url pg) = []
  /\ HistoryDetailPage.error
       (HistoryDetailPage.ui (HistoryDetailPage.click_LoadMore base_url pg))
     = Some "Cannot load more recommendations: sensor data not available".
Proof.
intros pg.
destruct (click_without_sensor_id base_url pg readings eq_refl eq_refl eq_refl)
  as [Hbutton [Hflight Hui]].
split; [exact Hbutton |]. split; [exact Hflight |].
rewrite Hui. reflexivity.
Defined.

Lemma load_more_accumulates_witness :
  let st := history [tomato] (Some readings) in
  let b := backend [tomato] [[okra]; [pechay]] in
  let w := fold_left (fun w _ => load_more_once base_url w)
             [[okra]; [pechay]] (st, b) in
  HistoryDetailPage.recommendations (fst w) = [tomato; okra; pechay]
  /\ Backend.stored (snd w) = [tomato; okra; pechay]
  /\ Backend.upcoming (snd w) = []
  /\ Backend.prompts (snd w)
     = ["- Tomato"; ("- Tomato" ++ Endpoint.newline ++ "- Okra")%string].
Proof.
intros st b w.
assert (Hatt : attached st b).
{ split; [reflexivity |]. split; [reflexivity |]. split; [discriminate |].
  exists readings. repeat split. }
destruct (load_more_accumulates base_url [[okra]; [pechay]] st b []
            Hatt eq_refl eq_refl) as [H1 [H2 [H3 [H4 _]]]].
fold w in H1, H2, H3, H4.
split; [exact H1 |]. split; [rewrite H2; exact H1 |].
split; [exact H3 | exact H4].
Defined.

Lemma crops_list_reads_back_witness :
  let names := ["Tomato"; "Bell Pepper"; "Okra"] in
  Endpoint.crops_list (Some names)
  = ("- Tomato" ++ Endpoint.newline ++ "- Bell Pepper" ++ Endpoint.newline
     ++ "- Okra")%string
  /\ listed_crops (Endpoint.crops_list (Some names)) = names
  /\ length (split_lines (Endpoint.crops_list (Some names))) = 3.
Proof.
intros names.
assert (Hne : names <> []) by discriminate.
destruct (crops_list_reads_back names Hne eq_refl) as [Hback [Hlen _]].
split; [reflexivity |]. split; [exact Hback | exact Hlen].
Defined.

Lemma paced_clicks_are_single_flight_witness :
  let t := {| HistoryDetailPage.rendered := history [tomato] (Some readings);
              HistoryDetailPage.live := idle_page [tomato] |} in
  let evs :=
    [HistoryDetailPage.ClickLoadMore; HistoryDetailPage.Render;
     HistoryDetailPage.ClickLoadMore;
     HistoryDetailPage.Deliver 0 (Rejected (ErrorObject "Failed to fetch"));
     HistoryDetailPage.Render; HistoryDetailPage.ClickLoadMore] in
  paced false evs = true
  /\ length (HistoryDetailPage.in_flight
               (HistoryDetailPage.live (HistoryDetailPage.steps base_url evs t)))
     <= 1.
Proof.
intros t evs. split; [reflexivity |].
exact (paced_clicks_are_single_flight base_url evs t eq_refl eq_refl).
Defined.

End MoreRuns.
